(** * Build conditions and Argo resource handlers of the choreo build controller

    A shallow embedding of
    - [internal/controller/build/controller_conditions.go]
      (package [build]: the condition vocabulary of a build and the
      functions that record pipeline progress on [build.Status]), and
    - the service-account and role-binding resource handlers of package
      [argo] ([internal/controller/build/integrations/kubernetes/ci/argo]).

    Go packages become modules of the same name, structs become records,
    [*T] becomes [option T] wherever the code can see a nil pointer, a
    run-time panic is an explicit outcome, and every reading of the clock
    ([metav1.Now()]) is an explicit argument. *)

From Stdlib Require Import ZArith.
From stdpp Require Import base decidable option list strings gmap.

Local Open Scope string_scope.

(** ** Go run-time outcomes *)

Module Go.

(** A call either returns or panics.  The only panic the modelled code can
    raise is the nil-pointer dereference. *)
Inductive result (A : Type) : Type :=
| Returned (a : A)
| NilPointerDereference.

Arguments Returned {A} a.
Arguments NilPointerDereference {A}.

Definition bind {A B : Type} (r : result A) (k : A -> result B) : result B :=
  match r with
  | Returned a => k a
  | NilPointerDereference => NilPointerDereference
  end.

End Go.

(** ** k8s.io/apimachinery/pkg/apis/meta/v1 *)

Module metav1.

(** [metav1.Time]: an instant, counted from Go's zero time, so that the
    zero value of the struct is [0]. *)
Definition Time : Type := Z.

Definition IsZero (t : Time) : bool := bool_decide (t = 0%Z).

(** [metav1.ConditionStatus] is a string type. *)
Definition ConditionStatus : Type := string.
Definition ConditionTrue : ConditionStatus := "True".
Definition ConditionFalse : ConditionStatus := "False".
Definition ConditionUnknown : ConditionStatus := "Unknown".

(** [metav1.Condition].  [Type] is a keyword, hence [Type_]. *)
Record Condition : Type := {
  Type_ : string;
  Status : ConditionStatus;
  ObservedGeneration : Z;
  LastTransitionTime : Time;
  Reason : string;
  Message : string
}.

(** [metav1.ObjectMeta], restricted to the fields the handlers touch. *)
Record ObjectMeta : Type := {
  Name : string;
  Namespace : string;
  Labels : option (gmap string string);
  ResourceVersion : string
}.

End metav1.

(** ** k8s.io/apimachinery/pkg/api/meta *)

Module meta.

Import metav1.

(** [meta.FindStatusCondition]: the first condition of the given type. *)
Fixpoint FindStatusCondition (conditions : list Condition) (conditionType : string)
  : option Condition :=
  match conditions with
  | [] => None
  | c :: rest =>
      if decide (Type_ c = conditionType) then Some c
      else FindStatusCondition rest conditionType
  end.

(** What [SetStatusCondition] does to the condition it found. *)
Definition updateExisting (now : Time) (existing newCondition : Condition) : Condition :=
  {| Type_ := Type_ existing;
     Status := Status newCondition;
     ObservedGeneration := ObservedGeneration newCondition;
     LastTransitionTime :=
       if decide (Status existing = Status newCondition)
       then LastTransitionTime existing
       else if IsZero (LastTransitionTime newCondition) then now
            else LastTransitionTime newCondition;
     Reason := Reason newCondition;
     Message := Message newCondition |}.

(** What [SetStatusCondition] appends when no condition of the type exists. *)
Definition stampNew (now : Time) (newCondition : Condition) : Condition :=
  if IsZero (LastTransitionTime newCondition)
  then {| Type_ := Type_ newCondition;
          Status := Status newCondition;
          ObservedGeneration := ObservedGeneration newCondition;
          LastTransitionTime := now;
          Reason := Reason newCondition;
          Message := Message newCondition |}
  else newCondition.

(** Modelled from the spec: [meta.SetStatusCondition] belongs to the
    apimachinery library, outside this repository.  Spec 4.4: it "upserts by
    type, replacing status/reason/message/observedGeneration and refreshing
    the transition timestamp only when the status value actually changes";
    spec 3: "set-by-type upsert, not append".  [now] is the reading of the
    clock the library takes when the new condition carries no timestamp.
    The callers drop the boolean the library returns, so it is left out. *)
Fixpoint SetStatusCondition (now : Time) (conditions : list Condition)
    (newCondition : Condition) : list Condition :=
  match conditions with
  | [] => [stampNew now newCondition]
  | c :: rest =>
      if decide (Type_ c = Type_ newCondition)
      then updateExisting now c newCondition :: rest
      else c :: SetStatusCondition now rest newCondition
  end.

End meta.

(** ** internal/controller *)

Module controller.

(** [controller.ConditionType] and [controller.ConditionReason] are string
    types. *)
Definition ConditionType : Type := string.
Definition ConditionReason : Type := string.

(** Modelled from the spec: [controller.NewCondition] lives in
    [internal/controller], a file not at hand.  Spec 3: a condition is
    "{type, status, reason, message, observedGeneration,
    lastTransitionTime}" with "observedGeneration pinned to the entity's
    generation at the time of the transition"; [now] is [metav1.Now()]. *)
Definition NewCondition (now : metav1.Time) (conditionType : ConditionType)
    (status : metav1.ConditionStatus) (reason : ConditionReason)
    (message : string) (observedGeneration : Z) : metav1.Condition :=
  {| metav1.Type_ := conditionType;
     metav1.Status := status;
     metav1.ObservedGeneration := observedGeneration;
     metav1.LastTransitionTime := now;
     metav1.Reason := reason;
     metav1.Message := message |}.

End controller.

(** ** internal/dataplane/kubernetes/types/argoproj.io/workflow/v1alpha1 *)

Module argoproj.

(** [argoproj.Parameter] ([Parameter] is a keyword, hence [Parameter_]);
    [Value] is a [*string]. *)
Record Parameter_ : Type := { Name : string; Value : option string }.

Record Outputs : Type := { Parameters : list Parameter_ }.

End argoproj.

(** ** api/v1: the fields of [choreov1.Build] the controller writes *)

Module choreov1.

Record Image : Type := {
  Image_ : string
}.

Record BuildStatus : Type := {
  Conditions : list metav1.Condition;
  ImageStatus : Image
}.

Record Build : Type := {
  Generation : Z;
  Status : BuildStatus
}.

(** A build nothing has been recorded on yet. *)
Definition newBuild (generation : Z) : Build :=
  {| Generation := generation;
     Status := {| Conditions := []; ImageStatus := {| Image_ := "" |} |} |}.

Definition withConditions (build : Build) (conditions : list metav1.Condition) : Build :=
  {| Generation := Generation build;
     Status := {| Conditions := conditions;
                  ImageStatus := ImageStatus (Status build) |} |}.

Definition withImage (build : Build) (image : string) : Build :=
  {| Generation := Generation build;
     Status := {| Conditions := Conditions (Status build);
                  ImageStatus := {| Image_ := image |} |} |}.

End choreov1.

(** ** internal/controller/build: controller_conditions.go *)

Module build.

Import controller.

Definition ConditionInitialized : ConditionType := "Initialized".
Definition ConditionCloneSucceeded : ConditionType := "CloneSucceeded".
Definition ConditionBuildSucceeded : ConditionType := "BuildSucceeded".
Definition ConditionPushSucceeded : ConditionType := "PushSucceeded".
Definition ConditionCompleted : ConditionType := "Completed".
Definition ConditionDeployableArtifactCreated : ConditionType := "DeployableArtifactCreated".
Definition ConditionDeploymentApplied : ConditionType := "DeploymentApplied".

Definition ReasonWorkflowCreatedSuccessfully : ConditionReason := "WorkflowCreated".
Definition ReasonCloneSucceeded : ConditionReason := "CloneSourceCodeSucceeded".
Definition ReasonCloneFailed : ConditionReason := "CloneSourceCodeFailed".
Definition ReasonBuildSucceeded : ConditionReason := "BuildImageSucceeded".
Definition ReasonBuildFailed : ConditionReason := "BuildImageFailed".
Definition ReasonPushSucceeded : ConditionReason := "PushImageSucceeded".
Definition ReasonPushFailed : ConditionReason := "PushImageFailed".
Definition ReasonWorkflowCompleted : ConditionReason := "BuildCompleted".
Definition ReasonWorkflowFailed : ConditionReason := "BuildFailed".
Definition ReasonArtifactCreatedSuccessfully : ConditionReason := "ArtifactCreationSuccessful".
Definition ReasonAutoDeploymentFailed : ConditionReason := "DeploymentFailed".
Definition ReasonAutoDeploymentApplied : ConditionReason := "DeploymentAppliedSuccessfully".

Definition NewWorkflowInitializedCondition (now : metav1.Time) (generation : Z)
  : metav1.Condition :=
  NewCondition now ConditionInitialized metav1.ConditionTrue
    ReasonWorkflowCreatedSuccessfully
    "Workflow was created in the cluster." generation.

Definition NewDeployableArtifactCreatedCondition (now : metav1.Time) (generation : Z)
  : metav1.Condition :=
  NewCondition now ConditionDeployableArtifactCreated metav1.ConditionTrue
    ReasonArtifactCreatedSuccessfully
    "Successfully created a deployable artifact for the build." generation.

Definition NewAutoDeploymentFailedCondition (now : metav1.Time) (generation : Z)
  : metav1.Condition :=
  NewCondition now ConditionDeploymentApplied metav1.ConditionFalse
    ReasonAutoDeploymentFailed
    "Deployment configuration failed." generation.

Definition NewAutoDeploymentSuccessfulCondition (now : metav1.Time) (generation : Z)
  : metav1.Condition :=
  NewCondition now ConditionDeploymentApplied metav1.ConditionTrue
    ReasonAutoDeploymentApplied
    "Successfully configured the deployment." generation.

(** The anonymous struct of the descriptor maps. *)
Record descriptor : Type := {
  Reason : ConditionReason;
  Message : string
}.

(** Indexing a Go map at a missing key yields the zero value. *)
Definition zeroDescriptor : descriptor := {| Reason := ""; Message := "" |}.

Definition successDescriptors : gmap string descriptor :=
  <[ConditionCloneSucceeded :=
      {| Reason := ReasonCloneSucceeded;
         Message := "Source code cloning was successful." |}]>
  (<[ConditionBuildSucceeded :=
      {| Reason := ReasonBuildSucceeded;
         Message := "Building the source code was successful." |}]>
  (<[ConditionPushSucceeded :=
      {| Reason := ReasonPushSucceeded;
         Message := "Pushing the built image to the registry was successful." |}]>
   ∅)).

Definition failureDescriptors : gmap string descriptor :=
  <[ConditionCloneSucceeded :=
      {| Reason := ReasonCloneFailed;
         Message := "Source code cloning failed." |}]>
  (<[ConditionBuildSucceeded :=
      {| Reason := ReasonBuildFailed;
         Message := "Building the source code failed." |}]>
  (<[ConditionPushSucceeded :=
      {| Reason := ReasonPushFailed;
         Message := "Pushing the built image to the registry failed." |}]>
   ∅)).

Definition index (m : gmap string descriptor) (k : string) : descriptor :=
  default zeroDescriptor (m !! k).

(** [meta.SetStatusCondition(&build.Status.Conditions, c)]. *)
Definition setCondition (now : metav1.Time) (b : choreov1.Build) (c : metav1.Condition)
  : choreov1.Build :=
  choreov1.withConditions b
    (meta.SetStatusCondition now (choreov1.Conditions (choreov1.Status b)) c).

Definition markStepAsSucceeded (now : metav1.Time) (b : choreov1.Build)
    (conditionType : ConditionType) : choreov1.Build :=
  setCondition now b
    (NewCondition now conditionType metav1.ConditionTrue
       (Reason (index successDescriptors conditionType))
       (Message (index successDescriptors conditionType))
       (choreov1.Generation b)).

Definition markStepAsFailed (now : metav1.Time) (b : choreov1.Build)
    (conditionType : ConditionType) : choreov1.Build :=
  let b1 :=
    setCondition now b
      (NewCondition now conditionType metav1.ConditionFalse
         (Reason (index failureDescriptors conditionType))
         (Message (index failureDescriptors conditionType))
         (choreov1.Generation b)) in
  setCondition now b1
    (NewCondition now ConditionCompleted metav1.ConditionFalse
       ReasonWorkflowFailed
       "Build completed with a failure status"
       (choreov1.Generation b1)).

(** The loop returns at the first parameter named "image" and
    dereferences its [Value] without a nil check. *)
Fixpoint imageOf (parameters : list argoproj.Parameter_) : Go.result string :=
  match parameters with
  | [] => Go.Returned ""
  | param :: rest =>
      if decide (argoproj.Name param = "image")
      then match argoproj.Value param with
           | Some v => Go.Returned v
           | None => Go.NilPointerDereference
           end
      else imageOf rest
  end.

Definition getImageNameFromWorkflow (output : argoproj.Outputs) : Go.result string :=
  imageOf (argoproj.Parameters output).

(** [argoPushStepOutput] is a pointer and is dereferenced to pass the
    struct by value.  The composite literal of [newCondition] names no
    [ObservedGeneration], which therefore has the zero value.  Nothing is
    written to [build] before the last point a panic can occur at. *)
Definition markWorkflowCompleted (now : metav1.Time) (b : choreov1.Build)
    (argoPushStepOutput : option argoproj.Outputs) : Go.result choreov1.Build :=
  let newCondition :=
    {| metav1.Type_ := ConditionCompleted;
       metav1.Status := metav1.ConditionTrue;
       metav1.ObservedGeneration := 0;
       metav1.LastTransitionTime := now;
       metav1.Reason := ReasonWorkflowCompleted;
       metav1.Message := "Build completed successfully." |} in
  Go.bind (match argoPushStepOutput with
           | Some output => getImageNameFromWorkflow output
           | None => Go.NilPointerDereference
           end)
    (fun image =>
       if decide (image = "")
       then
         Go.Returned
           (setCondition now b
              {| metav1.Type_ := metav1.Type_ newCondition;
                 metav1.Status := metav1.ConditionFalse;
                 metav1.ObservedGeneration := metav1.ObservedGeneration newCondition;
                 metav1.LastTransitionTime := metav1.LastTransitionTime newCondition;
                 metav1.Reason := ReasonWorkflowFailed;
                 metav1.Message := "Image name is not found in the workflow" |})
       else
         Go.Returned (setCondition now (choreov1.withImage b image) newCondition)).

(** [markWorkflowCompleted] as it is called: [build] is a pointer, and [b]
    above is what a non-nil [build] points at.  With a nil [build] the image
    lookup still runs first and may panic; when it returns, both branches
    go through [build] (the assignment to [build.Status.ImageStatus.Image],
    the address [&build.Status.Conditions]) and panic. *)
Definition markWorkflowCompleted_ptr (now : metav1.Time) (build : option choreov1.Build)
    (argoPushStepOutput : option argoproj.Outputs) : Go.result choreov1.Build :=
  match build with
  | Some b => markWorkflowCompleted now b argoPushStepOutput
  | None =>
      Go.bind (match argoPushStepOutput with
               | Some output => getImageNameFromWorkflow output
               | None => Go.NilPointerDereference
               end)
        (fun image => Go.NilPointerDereference)
  end.

End build.

(** ** The condition writes of the pipeline status controller *)

Module pipeline.

Import controller.

(** The writes the controller performs on [build.Status.Conditions].  The
    constructors without a function of their own in package [build] pass a
    [New...Condition] to [meta.SetStatusCondition]; [generation] is the
    argument the caller gives to the constructor function. *)
Inductive write : Type :=
| SetInitialized (generation : Z)
| MarkStepAsSucceeded (conditionType : ConditionType)
| MarkStepAsFailed (conditionType : ConditionType)
| MarkWorkflowCompleted (argoPushStepOutput : option argoproj.Outputs)
| SetDeployableArtifactCreated (generation : Z)
| SetAutoDeploymentFailed (generation : Z)
| SetAutoDeploymentSuccessful (generation : Z).

(** Modelled from the spec: the callers that set Initialized,
    DeployableArtifactCreated and DeploymentApplied belong to the reconciler,
    a file not at hand.  By spec 4.5 each sets the condition of its stage
    ("Initialized: set True immediately after the execution engine accepts
    the pipeline definition", "DeployableArtifactCreated: set True only after
    an artifact record has been durably created", "DeploymentApplied: set
    True/False by the auto-deployment collaborator"), built by the
    constructor of this file and stored by the set-by-type upsert of spec 3.
    The branches of [markStepAsSucceeded], [markStepAsFailed] and
    [markWorkflowCompleted] are the functions of the file; a panicking
    [markWorkflowCompleted] has written nothing. *)
Definition perform (now : metav1.Time) (w : write) (b : choreov1.Build) : choreov1.Build :=
  match w with
  | SetInitialized g =>
      build.setCondition now b (build.NewWorkflowInitializedCondition now g)
  | MarkStepAsSucceeded t => build.markStepAsSucceeded now b t
  | MarkStepAsFailed t => build.markStepAsFailed now b t
  | MarkWorkflowCompleted out =>
      match build.markWorkflowCompleted now b out with
      | Go.Returned b' => b'
      | Go.NilPointerDereference => b
      end
  | SetDeployableArtifactCreated g =>
      build.setCondition now b (build.NewDeployableArtifactCreatedCondition now g)
  | SetAutoDeploymentFailed g =>
      build.setCondition now b (build.NewAutoDeploymentFailedCondition now g)
  | SetAutoDeploymentSuccessful g =>
      build.setCondition now b (build.NewAutoDeploymentSuccessfulCondition now g)
  end.

(** The condition types a write is about. *)
Definition written (w : write) : list ConditionType :=
  match w with
  | SetInitialized _ => [build.ConditionInitialized]
  | MarkStepAsSucceeded t => [t]
  | MarkStepAsFailed t => [t; build.ConditionCompleted]
  | MarkWorkflowCompleted _ => [build.ConditionCompleted]
  | SetDeployableArtifactCreated _ => [build.ConditionDeployableArtifactCreated]
  | SetAutoDeploymentFailed _ => [build.ConditionDeploymentApplied]
  | SetAutoDeploymentSuccessful _ => [build.ConditionDeploymentApplied]
  end.

(** The three pipeline steps and the condition type of each. *)
Inductive step : Type := Clone | Build | Push.

Definition conditionOf (s : step) : ConditionType :=
  match s with
  | Clone => build.ConditionCloneSucceeded
  | Build => build.ConditionBuildSucceeded
  | Push => build.ConditionPushSucceeded
  end.

Definition conditionTypes (b : choreov1.Build) : list string :=
  metav1.Type_ <$> choreov1.Conditions (choreov1.Status b).

Definition condition (b : choreov1.Build) (conditionType : ConditionType)
  : option metav1.Condition :=
  meta.FindStatusCondition (choreov1.Conditions (choreov1.Status b)) conditionType.

Definition image (b : choreov1.Build) : string :=
  choreov1.Image_ (choreov1.ImageStatus (choreov1.Status b)).

(** "The parameter list's first parameter named image is [p]". *)
Definition firstImage (output : argoproj.Outputs) (p : argoproj.Parameter_) : Prop :=
  exists before after,
    argoproj.Parameters output = (before ++ p :: after)%list
    /\ Forall (fun q => argoproj.Name q <> "image") before
    /\ argoproj.Name p = "image".

Definition noImage (output : argoproj.Outputs) : Prop :=
  Forall (fun q => argoproj.Name q <> "image") (argoproj.Parameters output).

End pipeline.

(** ** k8s.io/api/core/v1 and k8s.io/api/rbac/v1 *)

Module corev1.

Record ServiceAccount : Type := { ObjectMeta : metav1.ObjectMeta }.

End corev1.

Module rbacv1.

Record Subject : Type := {
  Subject_Kind : string;
  Subject_APIGroup : string;
  Subject_Name : string;
  Subject_Namespace : string
}.

Record RoleRef : Type := {
  RoleRef_APIGroup : string;
  RoleRef_Kind : string;
  RoleRef_Name : string
}.

Record Role : Type := { Role_ObjectMeta : metav1.ObjectMeta }.

(** A slice is a list: the one comparison of [Subjects] is made under
    [cmpopts.EquateEmpty], which makes nil and empty indistinguishable. *)
Record RoleBinding : Type := {
  ObjectMeta : metav1.ObjectMeta;
  Subjects : list Subject;
  RoleRef_ : RoleRef
}.

#[global] Instance Subject_eq_dec : EqDecision Subject.
Proof. solve_decision. Defined.

#[global] Instance RoleRef_eq_dec : EqDecision RoleRef.
Proof. solve_decision. Defined.

End rbacv1.

(** ** github.com/google/go-cmp/cmp *)

Module cmp.

(** [cmp.Equal] at the three types it is called at: deep equality of
    [map[string]string] (a nil map differs from an empty one, hence the
    [option]), of [[]rbacv1.Subject] under [cmpopts.EquateEmpty], and of
    the struct [rbacv1.RoleRef], whose fields are all exported strings. *)
Definition Equal {A : Type} `{EqDecision A} (x y : A) : bool := bool_decide (x = y).

End cmp.

(** ** What the handlers take from elsewhere

    The build context and the helpers of package [kubernetes]
    ([MakeNamespaceName], [MakeLabels], [ExtractManagedLabels]), [makeRoleName]
    of the role handler, Go's [error] values with [errors.New], and
    [apierrors.IsNotFound] are not part of the embedded files.  They are
    parameters: every statement below holds whatever they are. *)

Class Externals : Type := {
  BuildContext : Type;
  MakeNamespaceName : BuildContext -> string;
  MakeLabels : BuildContext -> option (gmap string string);
  ExtractManagedLabels : option (gmap string string) -> option (gmap string string);
  makeRoleName : string;
  error : Type;
  errors_New : string -> error;
  IsNotFound : option error -> bool
}.

(** ** sigs.k8s.io/controller-runtime/pkg/client *)

Module client.

Record ObjectKey : Type := { Namespace : string; Name : string }.

(** The [client.Client] interface at the kinds the two handlers use it at.
    A call takes the store to its next state.  [Get] receives the struct
    the caller points it at and returns what the struct holds afterwards;
    the error of every call is [None] for Go's [nil]. *)
Class Client {E : Externals} (Store : Type) : Type := {
  Get_ServiceAccount :
    ObjectKey -> corev1.ServiceAccount -> Store ->
    corev1.ServiceAccount * option error * Store;
  Get_Role :
    ObjectKey -> rbacv1.Role -> Store -> rbacv1.Role * option error * Store;
  Create_ServiceAccount : corev1.ServiceAccount -> Store -> option error * Store;
  Create_RoleBinding : rbacv1.RoleBinding -> Store -> option error * Store;
  Update_ServiceAccount : corev1.ServiceAccount -> Store -> option error * Store;
  Update_RoleBinding : rbacv1.RoleBinding -> Store -> option error * Store
}.

End client.

(** ** internal/controller/build/integrations/kubernetes/ci/argo *)

Module argo.

(** [interface{}] at the dynamic types the two handlers return or assert:
    the untyped nil, struct values, and pointers (which may be nil). *)
Inductive any : Type :=
| nil
| ServiceAccountValue (sa : corev1.ServiceAccount)
| ServiceAccountPointer (p : option corev1.ServiceAccount)
| RoleValue (role : rbacv1.Role)
| RoleBindingPointer (p : option rbacv1.RoleBinding).

Definition zeroObjectMeta : metav1.ObjectMeta :=
  {| metav1.Name := ""; metav1.Namespace := "";
     metav1.Labels := None; metav1.ResourceVersion := "" |}.

Definition withResourceVersion (m : metav1.ObjectMeta) (resourceVersion : string)
  : metav1.ObjectMeta :=
  {| metav1.Name := metav1.Name m; metav1.Namespace := metav1.Namespace m;
     metav1.Labels := metav1.Labels m; metav1.ResourceVersion := resourceVersion |}.

Section handlers.

Context {E : Externals} {Store : Type} {kubernetesClient : client.Client Store}.

(** *** serviceAccountHandler *)

Definition serviceAccountHandler_Name : string := "ArgoWorkflowServiceAccount".

Definition makeServiceAccountName : string := "workflow-sa".

Definition makeServiceAccount (builtCtx : BuildContext) : corev1.ServiceAccount :=
  {| corev1.ObjectMeta :=
       {| metav1.Name := makeServiceAccountName;
          metav1.Namespace := MakeNamespaceName builtCtx;
          metav1.Labels := MakeLabels builtCtx;
          metav1.ResourceVersion := "" |} |}.

Definition serviceAccountHandler_GetCurrentState (builtCtx : BuildContext) (s : Store)
  : any * option error * Store :=
  let name := makeServiceAccountName in
  let sa := {| corev1.ObjectMeta := zeroObjectMeta |} in
  let '(sa, err, s) :=
    client.Get_ServiceAccount
      {| client.Name := name; client.Namespace := MakeNamespaceName builtCtx |} sa s in
  if IsNotFound err then (nil, None, s)
  else match err with
       | Some _ => (nil, err, s)
       | None => (ServiceAccountValue sa, None, s)
       end.

Definition serviceAccountHandler_Create (builtCtx : BuildContext) (s : Store)
  : option error * Store :=
  let sa := makeServiceAccount builtCtx in
  client.Create_ServiceAccount sa s.

Definition serviceAccountHandler_shouldUpdate (current new : corev1.ServiceAccount) : bool :=
  negb (cmp.Equal
          (ExtractManagedLabels (metav1.Labels (corev1.ObjectMeta current)))
          (ExtractManagedLabels (metav1.Labels (corev1.ObjectMeta new)))).

Definition serviceAccountHandler_Update (builtCtx : BuildContext) (currentState : any)
    (s : Store) : Go.result (option error) * Store :=
  match currentState with
  | ServiceAccountPointer currentSA =>
      let newSA := makeServiceAccount builtCtx in
      match currentSA with
      | None => (Go.NilPointerDereference, s)
      | Some currentSA =>
          if serviceAccountHandler_shouldUpdate currentSA newSA
          then
            let newSA :=
              {| corev1.ObjectMeta :=
                   withResourceVersion (corev1.ObjectMeta newSA)
                     (metav1.ResourceVersion (corev1.ObjectMeta currentSA)) |} in
            let '(err, s) := client.Update_ServiceAccount newSA s in
            (Go.Returned err, s)
          else (Go.Returned None, s)
      end
  | _ => (Go.Returned (Some (errors_New "failed to cast current state to ServiceAccount")), s)
  end.

Definition serviceAccountHandler_Delete (builtCtx : BuildContext) (s : Store)
  : option error * Store := (None, s).

Definition serviceAccountHandler_IsRequired (builtCtx : BuildContext) : bool := true.

(** *** roleBindingHandler *)

Definition roleBindingHandler_Name : string := "ArgoWorkflowRoleBinding".

Definition makeRoleBindingName : string := "workflow-role-binding".

Definition makeRoleBinding (builtCtx : BuildContext) : rbacv1.RoleBinding :=
  {| rbacv1.ObjectMeta :=
       {| metav1.Name := makeRoleBindingName;
          metav1.Namespace := MakeNamespaceName builtCtx;
          metav1.Labels := None;
          metav1.ResourceVersion := "" |};
     rbacv1.Subjects :=
       [ {| rbacv1.Subject_Kind := "ServiceAccount";
            rbacv1.Subject_APIGroup := "";
            rbacv1.Subject_Name := makeServiceAccountName;
            rbacv1.Subject_Namespace := MakeNamespaceName builtCtx |} ];
     rbacv1.RoleRef_ :=
       {| rbacv1.RoleRef_APIGroup := "rbac.authorization.k8s.io";
          rbacv1.RoleRef_Kind := "Role";
          rbacv1.RoleRef_Name := makeRoleName |} |}.

(** The struct fetched is an [rbacv1.Role], under the role binding's name. *)
Definition roleBindingHandler_GetCurrentState (builtCtx : BuildContext) (s : Store)
  : any * option error * Store :=
  let name := makeRoleBindingName in
  let role := {| rbacv1.Role_ObjectMeta := zeroObjectMeta |} in
  let '(role, err, s) :=
    client.Get_Role
      {| client.Name := name; client.Namespace := MakeNamespaceName builtCtx |} role s in
  if IsNotFound err then (nil, None, s)
  else match err with
       | Some _ => (nil, err, s)
       | None => (RoleValue role, None, s)
       end.

Definition roleBindingHandler_Create (builtCtx : BuildContext) (s : Store)
  : option error * Store :=
  let roleBinding := makeRoleBinding builtCtx in
  client.Create_RoleBinding roleBinding s.

Definition roleBindingHandler_shouldUpdate (current new : rbacv1.RoleBinding) : bool :=
  if negb (cmp.Equal
             (ExtractManagedLabels (metav1.Labels (rbacv1.ObjectMeta current)))
             (ExtractManagedLabels (metav1.Labels (rbacv1.ObjectMeta new))))
  then true
  else if negb (cmp.Equal (rbacv1.Subjects current) (rbacv1.Subjects new))
  then true
  else if negb (cmp.Equal (rbacv1.RoleRef_ current) (rbacv1.RoleRef_ new))
  then true
  else false.

Definition roleBindingHandler_Update (builtCtx : BuildContext) (currentState : any)
    (s : Store) : Go.result (option error) * Store :=
  match currentState with
  | RoleBindingPointer currentRoleBinding =>
      let newRoleBinding := makeRoleBinding builtCtx in
      match currentRoleBinding with
      | None => (Go.NilPointerDereference, s)
      | Some currentRoleBinding =>
          if roleBindingHandler_shouldUpdate currentRoleBinding newRoleBinding
          then
            let newRoleBinding :=
              {| rbacv1.ObjectMeta :=
                   withResourceVersion (rbacv1.ObjectMeta newRoleBinding)
                     (metav1.ResourceVersion (rbacv1.ObjectMeta currentRoleBinding));
                 rbacv1.Subjects := rbacv1.Subjects newRoleBinding;
                 rbacv1.RoleRef_ := rbacv1.RoleRef_ newRoleBinding |} in
            let '(err, s) := client.Update_RoleBinding newRoleBinding s in
            (Go.Returned err, s)
          else (Go.Returned None, s)
      end
  | _ => (Go.Returned (Some (errors_New "failed to cast current state to Role Binding")), s)
  end.

Definition roleBindingHandler_Delete (builtCtx : BuildContext) (s : Store)
  : option error * Store := (None, s).

Definition roleBindingHandler_IsRequired (builtCtx : BuildContext) : bool := true.

End handlers.

End argo.

(** ** An in-memory client

    A small stand-in for the API server, in the manner of controller-runtime's
    fake client: objects are kept per kind under "namespace/name", an outage
    flag makes every read fail, and every write is logged. *)

Module fake.

Definition externals : Externals :=
  {| BuildContext := string;
     MakeNamespaceName := fun builtCtx => builtCtx;
     MakeLabels := fun builtCtx => Some {[ "managed-by" := "choreo-build-controller" ]};
     ExtractManagedLabels :=
       fun labels => filter (fun kv => kv.1 = "managed-by") <$> labels;
     makeRoleName := "workflow-role";
     error := string;
     errors_New := fun message => message;
     IsNotFound := fun err => bool_decide (err = Some "NotFound") |}.

Record Store : Type := {
  serviceAccounts : gmap string corev1.ServiceAccount;
  roles : gmap string rbacv1.Role;
  roleBindings : gmap string rbacv1.RoleBinding;
  outage : bool;
  writes : list string
}.

Definition path (key : client.ObjectKey) : string :=
  client.Namespace key +:+ "/" +:+ client.Name key.

Definition logged (entry : string) (s : Store) : Store :=
  {| serviceAccounts := serviceAccounts s; roles := roles s;
     roleBindings := roleBindings s; outage := outage s;
     writes := entry :: writes s |}.

Definition get {A : Type} (objects : gmap string A) (key : client.ObjectKey)
    (into : A) (s : Store) : A * option (@error externals) * Store :=
  if outage s then (into, Some "ServiceUnavailable", s)
  else match objects !! path key with
       | Some object => (object, None, s)
       | None => (into, Some "NotFound", s)
       end.

Definition kubernetesClient : @client.Client externals Store :=
  {| client.Get_ServiceAccount := fun key into s => get (serviceAccounts s) key into s;
     client.Get_Role := fun key into s => get (roles s) key into s;
     client.Create_ServiceAccount := fun sa s => (None, logged "create ServiceAccount" s);
     client.Create_RoleBinding := fun rb s => (None, logged "create RoleBinding" s);
     client.Update_ServiceAccount := fun sa s => (None, logged "update ServiceAccount" s);
     client.Update_RoleBinding := fun rb s => (None, logged "update RoleBinding" s) |}.

Definition empty : Store :=
  {| serviceAccounts := ∅; roles := ∅; roleBindings := ∅; outage := false; writes := [] |}.

Definition down : Store :=
  {| serviceAccounts := ∅; roles := ∅; roleBindings := ∅; outage := true; writes := [] |}.

(** The store after the service account and a role under the role
    binding's name exist in namespace "ci". *)
Definition provisioned : Store :=
  {| serviceAccounts :=
       {[ "ci/workflow-sa" :=
            {| corev1.ObjectMeta :=
                 {| metav1.Name := "workflow-sa"; metav1.Namespace := "ci";
                    metav1.Labels := Some {[ "managed-by" := "choreo-build-controller" ]};
                    metav1.ResourceVersion := "41" |} |} ]};
     roles :=
       {[ "ci/workflow-role-binding" :=
            {| rbacv1.Role_ObjectMeta :=
                 {| metav1.Name := "workflow-role-binding"; metav1.Namespace := "ci";
                    metav1.Labels := None; metav1.ResourceVersion := "7" |} |} ]};
     roleBindings := ∅;
     outage := false;
     writes := [] |}.

(** The two handlers over this client. *)
Definition GetServiceAccountState :=
  @argo.serviceAccountHandler_GetCurrentState externals Store kubernetesClient.
Definition GetRoleBindingState :=
  @argo.roleBindingHandler_GetCurrentState externals Store kubernetesClient.
Definition UpdateServiceAccount :=
  @argo.serviceAccountHandler_Update externals Store kubernetesClient.
Definition UpdateRoleBinding :=
  @argo.roleBindingHandler_Update externals Store kubernetesClient.

End fake.

(** ** internal/controller/build/integrations/kubernetes: pointer helpers

    [PtrT(v)] returns the address of its parameter, a fresh variable that
    holds [v]: a pointer that is never nil.  The integer types are [Z]; the
    helpers do no arithmetic. *)

Module kubernetes.

Definition PtrBool (b : bool) : option bool := Some b.

Definition PtrString (s : string) : option string := Some s.

Definition PtrInt (i : Z) : option Z := Some i.

Definition PtrInt32 (i : Z) : option Z := Some i.

Definition PtrInt64 (i : Z) : option Z := Some i.

End kubernetes.

(** ** Pipeline outputs as name/value pairs *)

Module workflow.

(** The first value recorded under [name] in a list of name/value pairs. *)
Fixpoint lookup (name : string) (pairs : list (string * string)) : option string :=
  match pairs with
  | [] => None
  | (n, v) :: rest => if decide (n = name) then Some v else lookup name rest
  end.

(** The outputs whose parameters are the given pairs, in order, each value
    behind a pointer made by [kubernetes.PtrString]. *)
Definition outputsOf (pairs : list (string * string)) : argoproj.Outputs :=
  {| argoproj.Parameters :=
       (fun nv => {| argoproj.Name := nv.1;
                     argoproj.Value := kubernetes.PtrString nv.2 |}) <$> pairs |}.

(** The parameters named "image", in order. *)
Definition imageParameters (output : argoproj.Outputs) : argoproj.Outputs :=
  {| argoproj.Parameters :=
       filter (fun q => argoproj.Name q = "image") (argoproj.Parameters output) |}.

End workflow.

(** ** A client that keeps what it is given

    Objects live per kind under "namespace/name".  [Create] refuses a name
    that is taken and hands out resource version "1"; [Update] refuses a
    missing object and a stale resource version, and moves the version on. *)

Module memory.

Record Store : Type := {
  serviceAccounts : gmap string corev1.ServiceAccount;
  roles : gmap string rbacv1.Role;
  roleBindings : gmap string rbacv1.RoleBinding
}.

Definition path (m : metav1.ObjectMeta) : string :=
  metav1.Namespace m +:+ "/" +:+ metav1.Name m.

Definition withServiceAccounts (s : Store) (objects : gmap string corev1.ServiceAccount)
  : Store :=
  {| serviceAccounts := objects; roles := roles s; roleBindings := roleBindings s |}.

Definition withRoleBindings (s : Store) (objects : gmap string rbacv1.RoleBinding)
  : Store :=
  {| serviceAccounts := serviceAccounts s; roles := roles s; roleBindings := objects |}.

Definition get {A : Type} (objects : gmap string A) (key : client.ObjectKey)
    (into : A) (s : Store) : A * option (@error fake.externals) * Store :=
  match objects !! fake.path key with
  | Some object => (object, None, s)
  | None => (into, Some "NotFound", s)
  end.

Definition createServiceAccount (sa : corev1.ServiceAccount) (s : Store)
  : option (@error fake.externals) * Store :=
  match serviceAccounts s !! path (corev1.ObjectMeta sa) with
  | Some _ => (Some "AlreadyExists", s)
  | None =>
      (None,
       withServiceAccounts s
         (<[path (corev1.ObjectMeta sa) :=
              {| corev1.ObjectMeta :=
                   argo.withResourceVersion (corev1.ObjectMeta sa) "1" |}]>
            (serviceAccounts s)))
  end.

Definition updateServiceAccount (sa : corev1.ServiceAccount) (s : Store)
  : option (@error fake.externals) * Store :=
  match serviceAccounts s !! path (corev1.ObjectMeta sa) with
  | None => (Some "NotFound", s)
  | Some stored =>
      if decide (metav1.ResourceVersion (corev1.ObjectMeta sa)
                 = metav1.ResourceVersion (corev1.ObjectMeta stored))
      then
        (None,
         withServiceAccounts s
           (<[path (corev1.ObjectMeta sa) :=
                {| corev1.ObjectMeta :=
                     argo.withResourceVersion (corev1.ObjectMeta sa)
                       (metav1.ResourceVersion (corev1.ObjectMeta sa) +:+ "+") |}]>
              (serviceAccounts s)))
      else (Some "Conflict", s)
  end.

Definition createRoleBinding (rb : rbacv1.RoleBinding) (s : Store)
  : option (@error fake.externals) * Store :=
  match roleBindings s !! path (rbacv1.ObjectMeta rb) with
  | Some _ => (Some "AlreadyExists", s)
  | None =>
      (None,
       withRoleBindings s
         (<[path (rbacv1.ObjectMeta rb) :=
              {| rbacv1.ObjectMeta :=
                   argo.withResourceVersion (rbacv1.ObjectMeta rb) "1";
                 rbacv1.Subjects := rbacv1.Subjects rb;
                 rbacv1.RoleRef_ := rbacv1.RoleRef_ rb |}]>
            (roleBindings s)))
  end.

Definition updateRoleBinding (rb : rbacv1.RoleBinding) (s : Store)
  : option (@error fake.externals) * Store :=
  match roleBindings s !! path (rbacv1.ObjectMeta rb) with
  | None => (Some "NotFound", s)
  | Some stored =>
      if decide (metav1.ResourceVersion (rbacv1.ObjectMeta rb)
                 = metav1.ResourceVersion (rbacv1.ObjectMeta stored))
      then
        (None,
         withRoleBindings s
           (<[path (rbacv1.ObjectMeta rb) :=
                {| rbacv1.ObjectMeta :=
                     argo.withResourceVersion (rbacv1.ObjectMeta rb)
                       (metav1.ResourceVersion (rbacv1.ObjectMeta rb) +:+ "+");
                   rbacv1.Subjects := rbacv1.Subjects rb;
                   rbacv1.RoleRef_ := rbacv1.RoleRef_ rb |}]>
              (roleBindings s)))
      else (Some "Conflict", s)
  end.

Definition kubernetesClient : @client.Client fake.externals Store :=
  {| client.Get_ServiceAccount := fun key into s => get (serviceAccounts s) key into s;
     client.Get_Role := fun key into s => get (roles s) key into s;
     client.Create_ServiceAccount := createServiceAccount;
     client.Create_RoleBinding := createRoleBinding;
     client.Update_ServiceAccount := updateServiceAccount;
     client.Update_RoleBinding := updateRoleBinding |}.

Definition empty : Store :=
  {| serviceAccounts := ∅; roles := ∅; roleBindings := ∅ |}.

End memory.

(** * Properties *)

(** ** Finding and setting conditions *)

Section conditions.

Import metav1 meta.

Implicit Types (conditions : list Condition) (c : Condition) (t : string).

Lemma FindStatusCondition_Set_other now conditions c t :
  t <> Type_ c ->
  FindStatusCondition (SetStatusCondition now conditions c) t
  = FindStatusCondition conditions t.
Proof.
  intros Hne. induction conditions as [|d rest IH]; simpl.
  - unfold stampNew. destruct (IsZero _); simpl; case_decide; congruence.
  - destruct (decide (Type_ d = Type_ c)) as [Heq|Hneq]; simpl.
    + repeat case_decide; congruence.
    + case_decide; [reflexivity | exact IH].
Qed.

Lemma FindStatusCondition_Set_stored now conditions c stored :
  FindStatusCondition conditions (Type_ c) = Some stored ->
  FindStatusCondition (SetStatusCondition now conditions c) (Type_ c)
  = Some (updateExisting now stored c).
Proof.
  induction conditions as [|d rest IH]; simpl; [discriminate|].
  destruct (decide (Type_ d = Type_ c)) as [Heq|Hneq]; simpl.
  - intros [= ->]. case_decide; congruence.
  - intros Hrest. case_decide; [congruence | auto].
Qed.

Lemma FindStatusCondition_Set_fresh now conditions c :
  FindStatusCondition conditions (Type_ c) = None ->
  FindStatusCondition (SetStatusCondition now conditions c) (Type_ c)
  = Some (stampNew now c).
Proof.
  induction conditions as [|d rest IH]; simpl.
  - intros _. unfold stampNew. destruct (IsZero _); simpl; case_decide; congruence.
  - destruct (decide (Type_ d = Type_ c)) as [Heq|Hneq]; simpl; [discriminate|].
    intros Hrest. case_decide; [congruence | auto].
Qed.

(** Whatever was stored, the condition found after a set carries the new
    status, reason, message and observed generation. *)
Lemma FindStatusCondition_Set now conditions c :
  exists c',
    FindStatusCondition (SetStatusCondition now conditions c) (Type_ c) = Some c'
    /\ Type_ c' = Type_ c /\ Status c' = Status c /\ Reason c' = Reason c
    /\ Message c' = Message c /\ ObservedGeneration c' = ObservedGeneration c.
Proof.
  destruct (FindStatusCondition conditions (Type_ c)) as [stored|] eqn:Hfind.
  - exists (updateExisting now stored c). split.
    + by apply FindStatusCondition_Set_stored.
    + simpl. repeat split; try reflexivity.
      clear -Hfind. induction conditions as [|d rest IH]; simpl in Hfind; [discriminate|].
      case_decide; [congruence | auto].
  - exists (stampNew now c). split.
    + by apply FindStatusCondition_Set_fresh.
    + unfold stampNew. destruct (IsZero _); repeat split; reflexivity.
Qed.

Lemma FindStatusCondition_None conditions t :
  FindStatusCondition conditions t = None <-> t ∉ Type_ <$> conditions.
Proof.
  induction conditions as [|d rest IH]; simpl.
  - split; [intros _; apply not_elem_of_nil | reflexivity].
  - rewrite not_elem_of_cons. case_decide; split; try discriminate.
    + intros [? _]. congruence.
    + intros Hrest. split; [congruence | by apply IH].
    + intros [_ Hrest]. by apply IH.
Qed.

(** The types stored after a set: unchanged when the type was there, one
    more at the end when it was not. *)
Lemma SetStatusCondition_types now conditions c :
  Type_ <$> SetStatusCondition now conditions c
  = if decide (Type_ c ∈ Type_ <$> conditions)
    then Type_ <$> conditions
    else ((Type_ <$> conditions) ++ [Type_ c])%list.
Proof.
  induction conditions as [|d rest IH].
  - simpl. unfold stampNew. by destruct (IsZero _).
  - cbn [SetStatusCondition]. rewrite !fmap_cons.
    destruct (decide (Type_ d = Type_ c)) as [Heq|Hneq]; rewrite fmap_cons.
    + rewrite decide_True; [reflexivity | rewrite Heq; apply list_elem_of_here].
    + rewrite IH. destruct (decide (Type_ c ∈ Type_ <$> rest)) as [Hin|Hnin].
      * rewrite decide_True; [reflexivity | by apply list_elem_of_further].
      * rewrite decide_False; [reflexivity|].
        rewrite not_elem_of_cons. split; [congruence | assumption].
Qed.

Lemma SetStatusCondition_NoDup now conditions c :
  NoDup (Type_ <$> conditions) ->
  NoDup (Type_ <$> SetStatusCondition now conditions c).
Proof.
  intros Hnodup. rewrite SetStatusCondition_types. case_decide; [assumption|].
  apply NoDup_app. split; [assumption|]. split.
  - intros t Hin Hlast. apply list_elem_of_singleton in Hlast. congruence.
  - apply NoDup_singleton.
Qed.

(** A set touches conditions of the new condition's type only: the
    conditions of the types outside a list that holds it are the same, in
    the same order. *)
Lemma SetStatusCondition_filter_other now conditions c (l : list string) :
  Type_ c ∈ l ->
  filter (fun d => Type_ d ∉ l) (SetStatusCondition now conditions c)
  = filter (fun d => Type_ d ∉ l) conditions.
Proof.
  intros Hc. induction conditions as [|d rest IH]; cbn [SetStatusCondition].
  - rewrite filter_cons, filter_nil.
    assert (Type_ (stampNew now c) = Type_ c) as Htype
      by (unfold stampNew; by destruct (IsZero _)).
    rewrite decide_False; [reflexivity|]. rewrite Htype. tauto.
  - destruct (decide (Type_ d = Type_ c)) as [Heq|Hne].
    + rewrite !filter_cons. simpl (Type_ (updateExisting _ _ _)).
      rewrite !decide_False by (rewrite Heq; tauto). reflexivity.
    + rewrite !filter_cons, IH. reflexivity.
Qed.

Lemma SetStatusCondition_prefix now conditions c :
  (Type_ <$> conditions) `prefix_of` (Type_ <$> SetStatusCondition now conditions c).
Proof.
  rewrite SetStatusCondition_types. case_decide; [reflexivity|].
  by apply prefix_app_r.
Qed.

End conditions.

(** ** The image parameter of the push step *)

Section image.

Import argoproj.

Lemma imageOf_none (parameters : list Parameter_) :
  Forall (fun q => Name q <> "image") parameters ->
  build.imageOf parameters = Go.Returned "".
Proof.
  induction 1 as [|q rest Hq _ IH]; simpl; [reflexivity|].
  case_decide; [contradiction | exact IH].
Qed.

Lemma imageOf_first (before after : list Parameter_) (p : Parameter_) :
  Forall (fun q => Name q <> "image") before ->
  Name p = "image" ->
  build.imageOf (before ++ p :: after)
  = match Value p with
    | Some v => Go.Returned v
    | None => Go.NilPointerDereference
    end.
Proof.
  intros Hbefore Hp. induction Hbefore as [|q rest Hq _ IH]; simpl.
  - case_decide; [reflexivity | contradiction].
  - case_decide; [contradiction | exact IH].
Qed.

Lemma getImageNameFromWorkflow_first (output : Outputs) (p : Parameter_) :
  pipeline.firstImage output p ->
  build.getImageNameFromWorkflow output
  = match Value p with
    | Some v => Go.Returned v
    | None => Go.NilPointerDereference
    end.
Proof.
  intros (before & after & Hsplit & Hbefore & Hp).
  unfold build.getImageNameFromWorkflow. rewrite Hsplit.
  by apply imageOf_first.
Qed.

(** Every parameter list either has no parameter named image or has a
    first one. *)
Lemma image_cases (output : Outputs) :
  pipeline.noImage output \/ exists p, pipeline.firstImage output p.
Proof.
  unfold pipeline.noImage, pipeline.firstImage. destruct output as [parameters]. simpl.
  induction parameters as [|q rest IH]; [left; constructor|].
  destruct (decide (Name q = "image")) as [Hq|Hq].
  - right. exists q, [], rest. repeat split; [constructor | assumption].
  - destruct IH as [Hnone|(p & before & after & -> & Hbefore & Hp)].
    + left. by constructor.
    + right. exists p, (q :: before), after. repeat split; [by constructor | assumption].
Qed.

End image.

(** ** Reading a build after a write *)

Section builds.

Import metav1.

Lemma condition_setCondition_other now b c t :
  t <> Type_ c ->
  pipeline.condition (build.setCondition now b c) t = pipeline.condition b t.
Proof. intros Hne. by apply FindStatusCondition_Set_other. Qed.

Lemma condition_setCondition now b c :
  exists c',
    pipeline.condition (build.setCondition now b c) (Type_ c) = Some c'
    /\ Type_ c' = Type_ c /\ Status c' = Status c /\ Reason c' = Reason c
    /\ Message c' = Message c /\ ObservedGeneration c' = ObservedGeneration c.
Proof. apply FindStatusCondition_Set. Qed.

Lemma conditionTypes_setCondition_NoDup now b c :
  NoDup (pipeline.conditionTypes b) ->
  NoDup (pipeline.conditionTypes (build.setCondition now b c)).
Proof. apply SetStatusCondition_NoDup. Qed.

Lemma conditionTypes_setCondition_prefix now b c :
  pipeline.conditionTypes b `prefix_of` pipeline.conditionTypes (build.setCondition now b c).
Proof. apply SetStatusCondition_prefix. Qed.

Lemma image_setCondition now b c :
  pipeline.image (build.setCondition now b c) = pipeline.image b.
Proof. reflexivity. Qed.

Lemma Generation_setCondition now b c :
  choreov1.Generation (build.setCondition now b c) = choreov1.Generation b.
Proof. reflexivity. Qed.

(** The two ways [markWorkflowCompleted] returns. *)
Lemma markWorkflowCompleted_image now b output image :
  build.getImageNameFromWorkflow output = Go.Returned image ->
  image <> "" ->
  build.markWorkflowCompleted now b (Some output)
  = Go.Returned
      (build.setCondition now (choreov1.withImage b image)
         {| Type_ := build.ConditionCompleted;
            Status := ConditionTrue;
            ObservedGeneration := 0;
            LastTransitionTime := now;
            Reason := build.ReasonWorkflowCompleted;
            Message := "Build completed successfully." |}).
Proof.
  intros Himage Hne. unfold build.markWorkflowCompleted. rewrite Himage. simpl.
  by rewrite decide_False.
Qed.

Lemma markWorkflowCompleted_no_image now b output :
  build.getImageNameFromWorkflow output = Go.Returned "" ->
  build.markWorkflowCompleted now b (Some output)
  = Go.Returned
      (build.setCondition now b
         {| Type_ := build.ConditionCompleted;
            Status := ConditionFalse;
            ObservedGeneration := 0;
            LastTransitionTime := now;
            Reason := build.ReasonWorkflowFailed;
            Message := "Image name is not found in the workflow" |}).
Proof.
  intros Himage. unfold build.markWorkflowCompleted. rewrite Himage. reflexivity.
Qed.

End builds.

(** * The claims *)

Section claims.

Import metav1.

Local Open Scope Z_scope.

(** C1 (as amended).  When the first parameter named "image" of the push
    step's output carries a non-empty value [v], [markWorkflowCompleted]
    returns, the image recorded on the build status is [v], and the
    Completed condition has status True. *)
Theorem C1_first_image_is_recorded now b output v :
  pipeline.firstImage output {| argoproj.Name := "image"; argoproj.Value := Some v |} ->
  v <> "" ->
  exists b' completed,
    build.markWorkflowCompleted now b (Some output) = Go.Returned b'
    /\ pipeline.image b' = v
    /\ pipeline.condition b' "Completed" = Some completed
    /\ Status completed = "True".
Proof.
  intros Hfirst Hv.
  apply getImageNameFromWorkflow_first in Hfirst. simpl in Hfirst.
  rewrite (markWorkflowCompleted_image now b output v Hfirst Hv).
  match goal with
  | |- context [build.setCondition now ?b0 ?c] =>
      destruct (condition_setCondition now b0 c) as (completed & Hfind & _ & Hstatus & _)
  end.
  eexists _, completed. repeat split; [exact Hfind | exact Hstatus].
Qed.

Lemma C1_first_image_is_recorded_witness :
  exists b' completed,
    build.markWorkflowCompleted 1700000000 (choreov1.newBuild 3)
      (Some {| argoproj.Parameters :=
                 [ {| argoproj.Name := "digest"; argoproj.Value := None |};
                   {| argoproj.Name := "image";
                      argoproj.Value := Some "registry/app:sha123" |} ] |})
    = Go.Returned b'
    /\ pipeline.image b' = "registry/app:sha123"
    /\ pipeline.condition b' "Completed" = Some completed
    /\ Status completed = "True".
Proof.
  apply C1_first_image_is_recorded.
  - exists [ {| argoproj.Name := "digest"; argoproj.Value := None |} ], [].
    repeat split. repeat constructor. discriminate.
  - discriminate.
Defined.

(** C1 as stated fails: the output below contains a parameter named
    "image" with the non-empty value "registry/app:sha123", yet the value
    taken is that of the first parameter named "image", which is empty, so
    nothing is recorded and Completed is not True. *)
Lemma C1_counterexample :
  let output :=
    {| argoproj.Parameters :=
         [ {| argoproj.Name := "image"; argoproj.Value := Some "" |};
           {| argoproj.Name := "image"; argoproj.Value := Some "registry/app:sha123" |} ] |} in
  {| argoproj.Name := "image"; argoproj.Value := Some "registry/app:sha123" |}
    ∈ argoproj.Parameters output
  /\ "registry/app:sha123" <> ""
  /\ ~ (exists b' completed,
          build.markWorkflowCompleted 1700000000 (choreov1.newBuild 3) (Some output)
          = Go.Returned b'
          /\ pipeline.image b' = "registry/app:sha123"
          /\ pipeline.condition b' "Completed" = Some completed
          /\ Status completed = "True").
Proof.
  simpl. split; [|split].
  - apply list_elem_of_further, list_elem_of_here.
  - discriminate.
  - intros (b' & completed & Hrun & Himage & _).
    vm_compute in Hrun. injection Hrun as <-. vm_compute in Himage. discriminate.
Qed.

(** C2 (as amended).  For each of the steps Clone, Build and Push,
    [markStepAsFailed] leaves the step's condition with status False and
    the step's failure reason and, in the same call, the Completed
    condition with status False and the reason [ReasonWorkflowFailed],
    whose value is "BuildFailed". *)
Theorem C2_failed_step_fails_completed now b (s : pipeline.step) :
  exists failed completed,
    pipeline.condition (build.markStepAsFailed now b (pipeline.conditionOf s))
      (pipeline.conditionOf s) = Some failed
    /\ Status failed = "False"
    /\ Reason failed = match s with
                       | pipeline.Clone => "CloneSourceCodeFailed"
                       | pipeline.Build => "BuildImageFailed"
                       | pipeline.Push => "PushImageFailed"
                       end
    /\ pipeline.condition (build.markStepAsFailed now b (pipeline.conditionOf s))
         "Completed" = Some completed
    /\ Status completed = "False"
    /\ Reason completed = build.ReasonWorkflowFailed
    /\ build.ReasonWorkflowFailed = "BuildFailed".
Proof.
  unfold build.markStepAsFailed.
  match goal with
  | |- context [build.setCondition now (build.setCondition now b ?c1) ?c2] =>
      destruct (condition_setCondition now b c1) as (failed & Hfailed & _ & Hs1 & Hr1 & _);
      destruct (condition_setCondition now (build.setCondition now b c1) c2)
        as (completed & Hcompleted & _ & Hs2 & Hr2 & _)
  end.
  exists failed, completed. repeat split.
  - rewrite condition_setCondition_other by (destruct s; discriminate).
    exact Hfailed.
  - exact Hs1.
  - rewrite Hr1. by destruct s.
  - exact Hcompleted.
  - exact Hs2.
  - exact Hr2.
Qed.

(** C2 as stated fails on the reason of the Completed condition: after a
    failed Build step it is "BuildFailed", not "WorkflowFailed". *)
Lemma C2_counterexample :
  ~ (exists completed,
       pipeline.condition
         (build.markStepAsFailed 1700000000 (choreov1.newBuild 3) "BuildSucceeded")
         "Completed" = Some completed
       /\ Status completed = "False"
       /\ Reason completed = "WorkflowFailed").
Proof.
  intros (completed & Hfind & _ & Hreason).
  vm_compute in Hfind. injection Hfind as <-. discriminate.
Qed.

(** C3 (as amended).  When the push step's output has no parameter named
    "image", or the first such parameter carries the empty string,
    [markWorkflowCompleted] returns normally (no error, no panic), leaves
    the recorded image alone, and the Completed condition has status False,
    the reason [ReasonWorkflowFailed], whose value is "BuildFailed", and
    the message "Image name is not found in the workflow". *)
Theorem C3_missing_image_fails_completed now b output :
  pipeline.noImage output
  \/ pipeline.firstImage output {| argoproj.Name := "image"; argoproj.Value := Some "" |} ->
  exists b' completed,
    build.markWorkflowCompleted now b (Some output) = Go.Returned b'
    /\ pipeline.image b' = pipeline.image b
    /\ pipeline.condition b' "Completed" = Some completed
    /\ Status completed = "False"
    /\ Reason completed = build.ReasonWorkflowFailed
    /\ build.ReasonWorkflowFailed = "BuildFailed"
    /\ Message completed = "Image name is not found in the workflow".
Proof.
  intros Hcases.
  assert (build.getImageNameFromWorkflow output = Go.Returned "") as Himage.
  { destruct Hcases as [Hnone|Hfirst].
    - by apply imageOf_none.
    - by apply getImageNameFromWorkflow_first in Hfirst. }
  rewrite (markWorkflowCompleted_no_image now b output Himage).
  match goal with
  | |- context [build.setCondition now b ?c] =>
      destruct (condition_setCondition now b c)
        as (completed & Hfind & _ & Hstatus & Hreason & Hmessage & _)
  end.
  eexists _, completed. repeat split; assumption.
Qed.

Lemma C3_missing_image_fails_completed_witness :
  exists b' completed,
    build.markWorkflowCompleted 1700000000 (choreov1.newBuild 3)
      (Some {| argoproj.Parameters :=
                 [ {| argoproj.Name := "digest"; argoproj.Value := Some "sha256:0" |} ] |})
    = Go.Returned b'
    /\ pipeline.image b' = pipeline.image (choreov1.newBuild 3)
    /\ pipeline.condition b' "Completed" = Some completed
    /\ Status completed = "False"
    /\ Reason completed = build.ReasonWorkflowFailed
    /\ build.ReasonWorkflowFailed = "BuildFailed"
    /\ Message completed = "Image name is not found in the workflow".
Proof.
  apply C3_missing_image_fails_completed.
  left. repeat constructor. discriminate.
Defined.

(** C3 as stated fails on the reason: with no "image" parameter in the
    output the Completed condition carries "BuildFailed", not
    "WorkflowFailed". *)
Lemma C3_counterexample :
  ~ (exists b' completed,
       build.markWorkflowCompleted 1700000000 (choreov1.newBuild 3)
         (Some {| argoproj.Parameters := [] |}) = Go.Returned b'
       /\ pipeline.condition b' "Completed" = Some completed
       /\ Status completed = "False"
       /\ Reason completed = "WorkflowFailed").
Proof.
  intros (b' & completed & Hrun & Hfind & _ & Hreason).
  vm_compute in Hrun. injection Hrun as <-.
  vm_compute in Hfind. injection Hfind as <-. discriminate.
Qed.

(** C4, on the code.  Generation 3; Initialized is set, Clone, Build and
    Push are marked as succeeded, and [markWorkflowCompleted] is given an
    output with image=foo:1.  The five conditions are True and the first
    four observe generation 3, but Completed observes generation 0: the
    condition [markWorkflowCompleted] builds has no [ObservedGeneration]. *)
Theorem C4_completed_observes_generation_zero
    (status : choreov1.BuildStatus) (t1 t2 t3 t4 t5 : Time) :
  let b0 := {| choreov1.Generation := 3; choreov1.Status := status |} in
  let b1 := pipeline.perform t1 (pipeline.SetInitialized (choreov1.Generation b0)) b0 in
  let b2 := build.markStepAsSucceeded t2 b1 "CloneSucceeded" in
  let b3 := build.markStepAsSucceeded t3 b2 "BuildSucceeded" in
  let b4 := build.markStepAsSucceeded t4 b3 "PushSucceeded" in
  exists b5,
    build.markWorkflowCompleted t5 b4
      (Some {| argoproj.Parameters :=
                 [ {| argoproj.Name := "image"; argoproj.Value := Some "foo:1" |} ] |})
    = Go.Returned b5
    /\ Forall
         (fun conditionType =>
            exists c, pipeline.condition b5 conditionType = Some c
                      /\ Status c = "True" /\ ObservedGeneration c = 3)
         [ "Initialized"; "CloneSucceeded"; "BuildSucceeded"; "PushSucceeded" ]
    /\ exists completed,
         pipeline.condition b5 "Completed" = Some completed
         /\ Status completed = "True"
         /\ ObservedGeneration completed = 0
         /\ ObservedGeneration completed <> 3.
Proof.
  intros b0 b1 b2 b3 b4.
  eexists. split; [by apply markWorkflowCompleted_image|].
  unfold b4, b3, b2, b1, pipeline.perform, build.markStepAsSucceeded.
  assert (forall now b c,
            exists c', pipeline.condition (build.setCondition now b c) (Type_ c) = Some c'
                       /\ Status c' = Status c
                       /\ ObservedGeneration c' = ObservedGeneration c) as Hset.
  { intros now b c.
    destruct (condition_setCondition now b c) as (c' & ? & _ & ? & _ & _ & ?). eauto. }
  assert (forall b image t, pipeline.condition (choreov1.withImage b image) t
                            = pipeline.condition b t) as Himage by reflexivity.
  split; [repeat first [apply Forall_nil_2 | apply Forall_cons_2]|];
    rewrite ?Himage, ?condition_setCondition_other by discriminate;
    rewrite ?Himage, ?condition_setCondition_other by discriminate;
    match goal with
    | |- exists _, pipeline.condition (build.setCondition ?t ?b ?c) _ = _ /\ _ =>
        destruct (Hset t b c) as (c' & Hfind & Hstatus & Hgeneration);
        exists c'; repeat split;
        [exact Hfind | exact Hstatus | exact Hgeneration | idtac..]
    end.
  rewrite Hgeneration. discriminate.
Qed.

(** C6.  Setting a condition and then setting the same type again with
    the status the stored condition has leaves the stored
    [LastTransitionTime] as it was, whatever the clock and the new
    condition's timestamp say, and replaces the reason and the message by
    those of the second call. *)
Theorem C6_same_status_keeps_transition_time
    (now1 now2 : Time) (conditions : list Condition) (first second : Condition) :
  Type_ second = Type_ first ->
  exists stored,
    meta.FindStatusCondition (meta.SetStatusCondition now1 conditions first) (Type_ first)
    = Some stored
    /\ (Status second = Status stored ->
        exists final,
          meta.FindStatusCondition
            (meta.SetStatusCondition now2
               (meta.SetStatusCondition now1 conditions first) second)
            (Type_ first)
          = Some final
          /\ LastTransitionTime final = LastTransitionTime stored
          /\ Status final = Status stored
          /\ Reason final = Reason second
          /\ Message final = Message second).
Proof.
  intros Htype.
  destruct (FindStatusCondition_Set now1 conditions first) as (stored & Hstored & _).
  exists stored. split; [exact Hstored|].
  intros Hstatus. exists (meta.updateExisting now2 stored second).
  split.
  - rewrite <- Htype. apply FindStatusCondition_Set_stored. by rewrite Htype.
  - simpl. rewrite decide_True by done. by repeat split.
Qed.

Lemma C6_same_status_keeps_transition_time_witness :
  let first :=
    controller.NewCondition 100 "Completed" "False" "BuildFailed"
      "Build completed with a failure status" 3 in
  let second :=
    controller.NewCondition 200 "Completed" "False" "BuildFailed"
      "Image name is not found in the workflow" 3 in
  exists final,
    meta.FindStatusCondition
      (meta.SetStatusCondition 200 (meta.SetStatusCondition 100 [] first) second)
      "Completed"
    = Some final
    /\ LastTransitionTime final = 100
    /\ Status final = "False"
    /\ Reason final = "BuildFailed"
    /\ Message final = "Image name is not found in the workflow".
Proof.
  intros first second.
  destruct (C6_same_status_keeps_transition_time 100 200 [] first second eq_refl)
    as (stored & Hstored & Hsecond).
  injection Hstored as <-.
  destruct (Hsecond eq_refl) as (final & Hfinal & Htime & Hstatus & Hreason & Hmessage).
  exists final. repeat split; assumption.
Defined.

(** C7.  Every condition write of the controller keeps the conditions of
    a build at one per type when they were so before, and keeps every
    stored type where it was: the types before the write are a prefix of
    the types after it, so a write overwrites in place or appends and
    never removes.  It only overwrites by type: the conditions of the types
    the write is not about are the same conditions, in the same order, and
    each such type is found with the condition it had. *)
Theorem C7_writes_keep_one_condition_per_type
    (now : Time) (w : pipeline.write) (b : choreov1.Build) :
  (NoDup (pipeline.conditionTypes b) ->
   NoDup (pipeline.conditionTypes (pipeline.perform now w b)))
  /\ pipeline.conditionTypes b `prefix_of` pipeline.conditionTypes (pipeline.perform now w b)
  /\ filter (fun c => Type_ c ∉ pipeline.written w)
       (choreov1.Conditions (choreov1.Status (pipeline.perform now w b)))
     = filter (fun c => Type_ c ∉ pipeline.written w)
         (choreov1.Conditions (choreov1.Status b))
  /\ forall t, t ∉ pipeline.written w ->
       pipeline.condition (pipeline.perform now w b) t = pipeline.condition b t.
Proof.
  assert (forall image, pipeline.conditionTypes (choreov1.withImage b image)
                        = pipeline.conditionTypes b) as Himage by reflexivity.
  assert (forall now' b' c (l : list string),
            Type_ c ∈ l ->
            filter (fun d => Type_ d ∉ l)
              (choreov1.Conditions (choreov1.Status (build.setCondition now' b' c)))
            = filter (fun d => Type_ d ∉ l) (choreov1.Conditions (choreov1.Status b')))
    as Hframe.
  { intros now' b' c l Hin. unfold build.setCondition. simpl.
    by apply SetStatusCondition_filter_other. }
  assert (forall now' b' c (l : list string) t,
            Type_ c ∈ l -> t ∉ l ->
            pipeline.condition (build.setCondition now' b' c) t = pipeline.condition b' t)
    as Hother.
  { intros now' b' c l t Hin Hnotin. apply condition_setCondition_other.
    intros Heq. apply Hnotin. by rewrite Heq. }
  assert (forall (x : string) l, x ∈ x :: l) as Hhere by (intros; apply list_elem_of_here).
  destruct w as [g|t|t|out|g|g|g]; simpl;
    try (split; [apply conditionTypes_setCondition_NoDup
                | split; [apply conditionTypes_setCondition_prefix
                         | split; [apply Hframe, Hhere
                                  | intros t' Ht'; eapply Hother; [apply Hhere | exact Ht'] ]]]).
  - unfold build.markStepAsFailed. cbv zeta. split; [|split; [|split]].
    + intros Hnodup. by do 2 apply conditionTypes_setCondition_NoDup.
    + etrans; apply conditionTypes_setCondition_prefix.
    + rewrite !SetStatusCondition_filter_other
        by first [apply Hhere | apply list_elem_of_further, Hhere].
      reflexivity.
    + intros t' Ht'.
      apply not_elem_of_cons in Ht' as [Hstep Ht'].
      apply not_elem_of_cons in Ht' as [Hcompleted _].
      rewrite condition_setCondition_other by exact Hcompleted.
      by apply condition_setCondition_other.
  - unfold build.markWorkflowCompleted.
    destruct out as [output|]; simpl; [|by repeat split].
    destruct (build.getImageNameFromWorkflow output) as [image|]; simpl;
      [|by repeat split].
    case_decide.
    + split; [apply conditionTypes_setCondition_NoDup
             | split; [apply conditionTypes_setCondition_prefix
                      | split; [apply Hframe, Hhere
                               | intros t' Ht'; eapply Hother; [apply Hhere | exact Ht'] ]]].
    + split; [|split; [|split]].
      * intros Hnodup. apply conditionTypes_setCondition_NoDup. by rewrite Himage.
      * rewrite <- (Himage image) at 1. apply conditionTypes_setCondition_prefix.
      * rewrite Hframe by apply Hhere. reflexivity.
      * intros t' Ht'.
        apply not_elem_of_cons in Ht' as [Hcompleted _].
        by rewrite condition_setCondition_other.
Qed.

Lemma C7_writes_keep_one_condition_per_type_witness :
  let before := build.markStepAsSucceeded 100 (choreov1.newBuild 3) "CloneSucceeded" in
  let after := pipeline.perform 200 (pipeline.MarkStepAsFailed "BuildSucceeded") before in
  NoDup (pipeline.conditionTypes after)
  /\ pipeline.conditionTypes before `prefix_of` pipeline.conditionTypes after
  /\ filter (fun c => Type_ c ∉ ["BuildSucceeded"; "Completed"])
       (choreov1.Conditions (choreov1.Status after))
     = filter (fun c => Type_ c ∉ ["BuildSucceeded"; "Completed"])
         (choreov1.Conditions (choreov1.Status before))
  /\ pipeline.condition after "CloneSucceeded" = pipeline.condition before "CloneSucceeded".
Proof.
  intros before after.
  destruct (C7_writes_keep_one_condition_per_type 200
              (pipeline.MarkStepAsFailed "BuildSucceeded") before)
    as (Hnodup & Hprefix & Hframe & Hother).
  split; [|split; [|split]].
  - apply Hnodup. vm_compute. apply NoDup_singleton.
  - exact Hprefix.
  - exact Hframe.
  - apply Hother. simpl. rewrite !not_elem_of_cons.
    repeat split; [discriminate | discriminate | apply not_elem_of_nil].
Defined.

(** C10, on the code.  When the first parameter named "image" has a nil
    [Value], [getImageNameFromWorkflow] dereferences it and panics instead
    of returning a string. *)
Theorem C10_nil_value_is_dereferenced (output : argoproj.Outputs) :
  pipeline.firstImage output {| argoproj.Name := "image"; argoproj.Value := None |} ->
  build.getImageNameFromWorkflow output = Go.NilPointerDereference.
Proof. intros Hfirst. by apply getImageNameFromWorkflow_first in Hfirst. Qed.

Lemma C10_nil_value_is_dereferenced_witness :
  build.getImageNameFromWorkflow
    {| argoproj.Parameters :=
         [ {| argoproj.Name := "image"; argoproj.Value := None |} ] |}
  = Go.NilPointerDereference.
Proof.
  apply C10_nil_value_is_dereferenced.
  exists [], []. repeat split. constructor.
Defined.

End claims.

Section handler_claims.

Context {E : Externals} {Store : Type} {kubernetesClient : client.Client Store}.

Import argo.

(** What [Update] does with the state it is written for, a non-nil pointer:
    no client call unless [shouldUpdate] holds, and then one update that
    carries the current resource version. *)
Lemma serviceAccountHandler_Update_pointer builtCtx (current : corev1.ServiceAccount) s :
  serviceAccountHandler_Update builtCtx (ServiceAccountPointer (Some current)) s
  = if serviceAccountHandler_shouldUpdate current (makeServiceAccount builtCtx)
    then
      let r :=
        client.Update_ServiceAccount
          {| corev1.ObjectMeta :=
               withResourceVersion (corev1.ObjectMeta (makeServiceAccount builtCtx))
                 (metav1.ResourceVersion (corev1.ObjectMeta current)) |} s in
      (Go.Returned r.1, r.2)
    else (Go.Returned None, s).
Proof.
  unfold serviceAccountHandler_Update.
  destruct (serviceAccountHandler_shouldUpdate _ _); [|reflexivity].
  by destruct (client.Update_ServiceAccount _ _).
Qed.

Lemma roleBindingHandler_Update_pointer builtCtx (current : rbacv1.RoleBinding) s :
  roleBindingHandler_Update builtCtx (RoleBindingPointer (Some current)) s
  = if roleBindingHandler_shouldUpdate current (makeRoleBinding builtCtx)
    then
      let r :=
        client.Update_RoleBinding
          {| rbacv1.ObjectMeta :=
               withResourceVersion (rbacv1.ObjectMeta (makeRoleBinding builtCtx))
                 (metav1.ResourceVersion (rbacv1.ObjectMeta current));
             rbacv1.Subjects := rbacv1.Subjects (makeRoleBinding builtCtx);
             rbacv1.RoleRef_ := rbacv1.RoleRef_ (makeRoleBinding builtCtx) |} s in
      (Go.Returned r.1, r.2)
    else (Go.Returned None, s).
Proof.
  unfold roleBindingHandler_Update.
  destruct (roleBindingHandler_shouldUpdate _ _); [|reflexivity].
  by destruct (client.Update_RoleBinding _ _).
Qed.

(** The dynamic type of what [GetCurrentState] returns is never the
    pointer type [Update] asserts. *)
Lemma serviceAccountHandler_GetCurrentState_dynamic_type builtCtx s :
  (serviceAccountHandler_GetCurrentState builtCtx s).1.1 = nil
  \/ exists sa, (serviceAccountHandler_GetCurrentState builtCtx s).1.1 = ServiceAccountValue sa.
Proof.
  unfold serviceAccountHandler_GetCurrentState.
  destruct (client.Get_ServiceAccount _ _ _) as [[sa err] s'].
  destruct (IsNotFound err); [by left|]. destruct err; simpl; eauto.
Qed.

Lemma roleBindingHandler_GetCurrentState_dynamic_type builtCtx s :
  (roleBindingHandler_GetCurrentState builtCtx s).1.1 = nil
  \/ exists role, (roleBindingHandler_GetCurrentState builtCtx s).1.1 = RoleValue role.
Proof.
  unfold roleBindingHandler_GetCurrentState.
  destruct (client.Get_Role _ _ _) as [[role err] s'].
  destruct (IsNotFound err); [by left|]. destruct err; simpl; eauto.
Qed.

(** C5, on the code.  Given the state the same handler's [GetCurrentState]
    returned, [Update] never reaches [shouldUpdate]: the state holds a
    struct value ([corev1.ServiceAccount], [rbacv1.Role]) where [Update]
    asserts a pointer ([*corev1.ServiceAccount], [*rbacv1.RoleBinding]), so
    [Update] returns the cast error, without a client call, whether or not
    the objects diverge. *)
Theorem C5_update_rejects_fetched_state (builtCtx : BuildContext) (s s' : Store) :
  serviceAccountHandler_Update builtCtx
    (serviceAccountHandler_GetCurrentState builtCtx s).1.1 s'
  = (Go.Returned (Some (errors_New "failed to cast current state to ServiceAccount")), s')
  /\ roleBindingHandler_Update builtCtx
       (roleBindingHandler_GetCurrentState builtCtx s).1.1 s'
     = (Go.Returned (Some (errors_New "failed to cast current state to Role Binding")), s').
Proof.
  split.
  - destruct (serviceAccountHandler_GetCurrentState_dynamic_type builtCtx s)
      as [->|[sa ->]]; reflexivity.
  - destruct (roleBindingHandler_GetCurrentState_dynamic_type builtCtx s)
      as [->|[role ->]]; reflexivity.
Qed.

(** C8.  When the client's [Get] reports an error that [IsNotFound]
    recognises, [GetCurrentState] returns (nil, nil); when it reports any
    other error, [GetCurrentState] returns (nil, that error); and it
    returns an error in no other case. *)
Theorem C8_absent_is_not_an_error (builtCtx : BuildContext) (s : Store)
    (sa : corev1.ServiceAccount) (err : option error) (s' : Store)
    (role : rbacv1.Role) (err_role : option error) (s_role : Store) :
  client.Get_ServiceAccount
    {| client.Namespace := MakeNamespaceName builtCtx; client.Name := "workflow-sa" |}
    {| corev1.ObjectMeta := zeroObjectMeta |} s = (sa, err, s') ->
  client.Get_Role
    {| client.Namespace := MakeNamespaceName builtCtx;
       client.Name := "workflow-role-binding" |}
    {| rbacv1.Role_ObjectMeta := zeroObjectMeta |} s = (role, err_role, s_role) ->
  ((IsNotFound err = true ->
    serviceAccountHandler_GetCurrentState builtCtx s = (nil, None, s'))
   /\ (forall e, IsNotFound err = false -> err = Some e ->
       serviceAccountHandler_GetCurrentState builtCtx s = (nil, Some e, s'))
   /\ (forall e, (serviceAccountHandler_GetCurrentState builtCtx s).1.2 = Some e ->
       IsNotFound err = false /\ err = Some e))
  /\ ((IsNotFound err_role = true ->
       roleBindingHandler_GetCurrentState builtCtx s = (nil, None, s_role))
      /\ (forall e, IsNotFound err_role = false -> err_role = Some e ->
          roleBindingHandler_GetCurrentState builtCtx s = (nil, Some e, s_role))
      /\ (forall e, (roleBindingHandler_GetCurrentState builtCtx s).1.2 = Some e ->
          IsNotFound err_role = false /\ err_role = Some e)).
Proof.
  intros Hsa Hrole.
  unfold serviceAccountHandler_GetCurrentState, roleBindingHandler_GetCurrentState,
    makeServiceAccountName, makeRoleBindingName.
  rewrite Hsa, Hrole. split.
  - repeat split.
    + by intros ->.
    + by intros e -> ->.
    + destruct (IsNotFound err); [discriminate | reflexivity].
    + destruct (IsNotFound err); [discriminate|]. by destruct err.
  - repeat split.
    + by intros ->.
    + by intros e -> ->.
    + destruct (IsNotFound err_role); [discriminate | reflexivity].
    + destruct (IsNotFound err_role); [discriminate|]. by destruct err_role.
Qed.

(** C9.  Neither handler's [shouldUpdate] flags an object against itself. *)
Theorem C9_shouldUpdate_irreflexive :
  (forall d : corev1.ServiceAccount, serviceAccountHandler_shouldUpdate d d = false)
  /\ (forall d : rbacv1.RoleBinding, roleBindingHandler_shouldUpdate d d = false).
Proof.
  unfold serviceAccountHandler_shouldUpdate, roleBindingHandler_shouldUpdate, cmp.Equal.
  split; intros d; by rewrite !bool_decide_eq_true_2.
Qed.

End handler_claims.

(** ** The handlers on the in-memory client *)

Section on_the_fake_client.

Import argo fake.

Lemma C8_absent_is_not_an_error_witness :
  (GetServiceAccountState "ci" fake.empty = (nil, None, fake.empty)
   /\ GetRoleBindingState "ci" fake.empty = (nil, None, fake.empty))
  /\ (GetServiceAccountState "ci" fake.down = (nil, Some "ServiceUnavailable", fake.down)
      /\ GetRoleBindingState "ci" fake.down = (nil, Some "ServiceUnavailable", fake.down)).
Proof.
  split.
  - destruct (@C8_absent_is_not_an_error fake.externals fake.Store fake.kubernetesClient
                "ci" fake.empty
                {| corev1.ObjectMeta := zeroObjectMeta |} (Some "NotFound") fake.empty
                {| rbacv1.Role_ObjectMeta := zeroObjectMeta |} (Some "NotFound") fake.empty
                eq_refl eq_refl) as [(Hsa & _) (Hrole & _)].
    split; [apply Hsa | apply Hrole]; reflexivity.
  - destruct (@C8_absent_is_not_an_error fake.externals fake.Store fake.kubernetesClient
                "ci" fake.down
                {| corev1.ObjectMeta := zeroObjectMeta |} (Some "ServiceUnavailable") fake.down
                {| rbacv1.Role_ObjectMeta := zeroObjectMeta |} (Some "ServiceUnavailable")
                fake.down eq_refl eq_refl) as [(_ & Hsa & _) (_ & Hrole & _)].
    split; [apply Hsa | apply Hrole]; reflexivity.
Defined.

(** C5 at a concrete store: the service account exists with exactly the
    managed labels the handler would give it, so nothing diverges; [Update]
    on the fetched state still returns the cast error instead of nil.  The
    same state behind a pointer is accepted and is a no-op. *)
Lemma C5_failing_input :
  exists current,
    GetServiceAccountState "ci" fake.provisioned
    = (ServiceAccountValue current, None, fake.provisioned)
    /\ @serviceAccountHandler_shouldUpdate fake.externals current
         (@makeServiceAccount fake.externals "ci") = false
    /\ UpdateServiceAccount "ci" (ServiceAccountValue current) fake.provisioned
       = (Go.Returned (Some "failed to cast current state to ServiceAccount"),
          fake.provisioned)
    /\ UpdateServiceAccount "ci" (ServiceAccountPointer (Some current)) fake.provisioned
       = (Go.Returned None, fake.provisioned).
Proof.
  eexists. split; [vm_compute; reflexivity|].
  split; [|split]; vm_compute; reflexivity.
Qed.

(** The role binding handler fetches an [rbacv1.Role]; [Update] rejects it
    as well. *)
Lemma C5_failing_input_role_binding :
  exists role,
    GetRoleBindingState "ci" fake.provisioned = (RoleValue role, None, fake.provisioned)
    /\ UpdateRoleBinding "ci" (RoleValue role) fake.provisioned
       = (Go.Returned (Some "failed to cast current state to Role Binding"),
          fake.provisioned).
Proof.
  eexists. split; vm_compute; reflexivity.
Qed.

End on_the_fake_client.

(** * Further properties of the embedded code *)

(** ** More on finding and setting conditions *)

Section more_conditions.

Import metav1 meta.

Implicit Types (conditions : list Condition) (c : Condition) (t : string).

Lemma FindStatusCondition_Set_eq now conditions c :
  FindStatusCondition (SetStatusCondition now conditions c) (Type_ c)
  = Some match FindStatusCondition conditions (Type_ c) with
         | Some stored => updateExisting now stored c
         | None => stampNew now c
         end.
Proof.
  destruct (FindStatusCondition conditions (Type_ c)) as [stored|] eqn:Hfind.
  - by apply FindStatusCondition_Set_stored.
  - by apply FindStatusCondition_Set_fresh.
Qed.

(** Setting what is stored already, up to the timestamp, changes nothing. *)
Lemma SetStatusCondition_stored_again now conditions c stored :
  FindStatusCondition conditions (Type_ c) = Some stored ->
  Status stored = Status c ->
  ObservedGeneration stored = ObservedGeneration c ->
  Reason stored = Reason c ->
  Message stored = Message c ->
  SetStatusCondition now conditions c = conditions.
Proof.
  intros Hfind Hstatus Hgeneration Hreason Hmessage.
  induction conditions as [|d rest IH]; simpl in *; [discriminate|].
  destruct (decide (Type_ d = Type_ c)) as [Heq|Hne].
  - injection Hfind as ->. f_equal. unfold updateExisting.
    rewrite decide_True by assumption.
    destruct stored; simpl in *; congruence.
  - f_equal. by apply IH.
Qed.

Lemma SetStatusCondition_length now conditions c :
  length (SetStatusCondition now conditions c)
  = if decide (Type_ c ∈ Type_ <$> conditions)
    then length conditions
    else S (length conditions).
Proof.
  rewrite <- (length_fmap Type_ (SetStatusCondition now conditions c)).
  rewrite SetStatusCondition_types.
  case_decide; rewrite ?length_app, !length_fmap; simpl; lia.
Qed.

Lemma stampNew_LastTransitionTime now c :
  LastTransitionTime c = now -> stampNew now c = c.
Proof.
  intros Htime. unfold stampNew. destruct (IsZero _); [|reflexivity].
  destruct c; simpl in *; congruence.
Qed.

End more_conditions.

(** ** The image parameter, continued *)

Section more_image.

Import argoproj.

(** X1.  [getImageNameFromWorkflow] looks at the parameters named "image"
    only: dropping every other parameter from the output changes neither
    the value returned nor whether the call panics. *)
Theorem X1_only_image_parameters_matter (output : Outputs) :
  build.getImageNameFromWorkflow (workflow.imageParameters output)
  = build.getImageNameFromWorkflow output.
Proof.
  unfold build.getImageNameFromWorkflow, workflow.imageParameters. simpl.
  induction (Parameters output) as [|q rest IH]; [reflexivity|].
  rewrite filter_cons. simpl.
  destruct (decide (Name q = "image")) as [Hq|Hq]; simpl.
  - by rewrite decide_True.
  - exact IH.
Qed.

(** X2.  On an output whose values all sit behind pointers made by
    [PtrString], [getImageNameFromWorkflow] never panics and is the lookup
    of "image" among the name/value pairs, first match first, with the empty
    string when there is none. *)
Theorem X2_image_of_pairs (pairs : list (string * string)) :
  build.getImageNameFromWorkflow (workflow.outputsOf pairs)
  = Go.Returned (default "" (workflow.lookup "image" pairs)).
Proof.
  unfold build.getImageNameFromWorkflow, workflow.outputsOf. simpl.
  induction pairs as [|[n v] rest IH]; [reflexivity|].
  rewrite fmap_cons. simpl. case_decide; [reflexivity | exact IH].
Qed.

(** X3.  When every parameter named "image" has a non-nil [Value],
    [getImageNameFromWorkflow] returns, and so does
    [markWorkflowCompleted] on every build and at every time. *)
Theorem X3_values_present_no_panic (output : Outputs) :
  Forall (fun q => Name q = "image" -> Value q <> None) (Parameters output) ->
  (exists image, build.getImageNameFromWorkflow output = Go.Returned image)
  /\ forall now b, exists b',
       build.markWorkflowCompleted now b (Some output) = Go.Returned b'.
Proof.
  intros Hvalues.
  assert (exists image, build.getImageNameFromWorkflow output = Go.Returned image)
    as [image Himage].
  { unfold build.getImageNameFromWorkflow.
    induction Hvalues as [|q rest Hq _ IH]; simpl; [by eexists|].
    case_decide; [|exact IH].
    destruct (Value q) as [v|]; [by eexists | by destruct Hq]. }
  split; [by eexists|].
  intros now b. unfold build.markWorkflowCompleted. rewrite Himage. simpl.
  case_decide; by eexists.
Qed.

Lemma X3_values_present_no_panic_witness :
  (exists image,
     build.getImageNameFromWorkflow
       {| Parameters := [ {| Name := "digest"; Value := None |};
                          {| Name := "image"; Value := Some "foo:1" |} ] |}
     = Go.Returned image)
  /\ forall now b, exists b',
       build.markWorkflowCompleted now b
         (Some {| Parameters := [ {| Name := "digest"; Value := None |};
                                  {| Name := "image"; Value := Some "foo:1" |} ] |})
       = Go.Returned b'.
Proof.
  apply X3_values_present_no_panic. simpl.
  repeat constructor; simpl; intros; discriminate.
Defined.

(** X4.  [markWorkflowCompleted], called with its two pointers, panics in
    exactly three cases: the build pointer is nil, the output pointer is
    nil, or the first parameter named "image" has a nil [Value]. *)
Theorem X4_panics_exactly_when now (b : option choreov1.Build)
    (argoPushStepOutput : option Outputs) :
  build.markWorkflowCompleted_ptr now b argoPushStepOutput = Go.NilPointerDereference
  <-> b = None
      \/ argoPushStepOutput = None
      \/ exists output,
           argoPushStepOutput = Some output
           /\ pipeline.firstImage output {| Name := "image"; Value := None |}.
Proof.
  split.
  - destruct b as [b|]; [|by left]. simpl.
    destruct argoPushStepOutput as [output|]; [|by right; left].
    intros Hpanic. right. right. exists output. split; [reflexivity|].
    unfold build.markWorkflowCompleted in Hpanic.
    destruct (image_cases output) as [Hnone|[p Hfirst]].
    + apply imageOf_none in Hnone. unfold build.getImageNameFromWorkflow in Hpanic.
      rewrite Hnone in Hpanic. simpl in Hpanic. discriminate.
    + pose proof (getImageNameFromWorkflow_first output p Hfirst) as Himage.
      destruct p as [name [v|]]; simpl in Himage.
      * rewrite Himage in Hpanic. simpl in Hpanic. by case_decide.
      * destruct Hfirst as (before & after & Hsplit & Hbefore & Hname).
        simpl in Hname. subst name. by exists before, after.
  - intros [->|[->|(output & -> & Hfirst)]].
    + simpl. by destruct argoPushStepOutput as [output|];
        [destruct (build.getImageNameFromWorkflow output)|].
    + by destruct b.
    + apply getImageNameFromWorkflow_first in Hfirst. simpl in Hfirst.
      destruct b as [b|]; simpl.
      * unfold build.markWorkflowCompleted. by rewrite Hfirst.
      * by rewrite Hfirst.
Qed.

End more_image.

(** ** The writes on a build, continued *)

Section more_builds.

Import metav1.

Local Open Scope Z_scope.

Lemma index_successDescriptors_other (t : string) :
  t <> "CloneSucceeded" -> t <> "BuildSucceeded" -> t <> "PushSucceeded" ->
  build.index build.successDescriptors t = build.zeroDescriptor.
Proof.
  intros H1 H2 H3. unfold build.index, build.successDescriptors.
  rewrite !lookup_insert_ne by done. by rewrite lookup_empty.
Qed.

Lemma index_failureDescriptors_other (t : string) :
  t <> "CloneSucceeded" -> t <> "BuildSucceeded" -> t <> "PushSucceeded" ->
  build.index build.failureDescriptors t = build.zeroDescriptor.
Proof.
  intros H1 H2 H3. unfold build.index, build.failureDescriptors.
  rewrite !lookup_insert_ne by done. by rewrite lookup_empty.
Qed.

Lemma setCondition_stored_again now b c stored :
  pipeline.condition b (Type_ c) = Some stored ->
  Status stored = Status c ->
  ObservedGeneration stored = ObservedGeneration c ->
  Reason stored = Reason c ->
  Message stored = Message c ->
  build.setCondition now b c = b.
Proof.
  intros Hfind Hstatus Hgeneration Hreason Hmessage.
  unfold build.setCondition.
  rewrite (SetStatusCondition_stored_again now _ c stored) by assumption.
  by destruct b as [g [conditions image]].
Qed.

Lemma condition_withImage b image t :
  pipeline.condition (choreov1.withImage b image) t = pipeline.condition b t.
Proof. reflexivity. Qed.

(** X5.  A returning [markWorkflowCompleted] writes the Completed condition
    and nothing else of the conditions: the generation is the same and every
    condition of another type is found as before. *)
Theorem X5_markWorkflowCompleted_frame now b argoPushStepOutput b' :
  build.markWorkflowCompleted now b argoPushStepOutput = Go.Returned b' ->
  choreov1.Generation b' = choreov1.Generation b
  /\ forall t, t <> "Completed" -> pipeline.condition b' t = pipeline.condition b t.
Proof.
  unfold build.markWorkflowCompleted.
  destruct argoPushStepOutput as [output|]; simpl; [|discriminate].
  destruct (build.getImageNameFromWorkflow output) as [image|]; simpl; [|discriminate].
  case_decide; intros [= <-]; (split; [reflexivity|]); intros t Ht;
    by rewrite condition_setCondition_other.
Qed.

Lemma X5_markWorkflowCompleted_frame_witness :
  let b := build.markStepAsSucceeded 100 (choreov1.newBuild 3) "PushSucceeded" in
  let b' :=
    build.setCondition 200 (choreov1.withImage b "foo:1")
      {| Type_ := "Completed"; Status := "True"; ObservedGeneration := 0;
         LastTransitionTime := 200; Reason := "BuildCompleted";
         Message := "Build completed successfully." |} in
  choreov1.Generation b' = choreov1.Generation b
  /\ forall t, t <> "Completed" -> pipeline.condition b' t = pipeline.condition b t.
Proof.
  intros b b'.
  apply (X5_markWorkflowCompleted_frame 200 b
           (Some {| argoproj.Parameters :=
                      [ {| argoproj.Name := "image"; argoproj.Value := Some "foo:1" |} ] |})).
  reflexivity.
Defined.

(** X6.  For each of the steps Clone, Build and Push, [markStepAsSucceeded]
    leaves the step's condition True with the step's success reason and
    message and the build's generation as observed generation; the
    conditions of every other type, the generation and the recorded image
    stay as they were. *)
Theorem X6_markStepAsSucceeded_step now b (s : pipeline.step) :
  let b' := build.markStepAsSucceeded now b (pipeline.conditionOf s) in
  (exists c,
     pipeline.condition b' (pipeline.conditionOf s) = Some c
     /\ Status c = "True"
     /\ Reason c = match s with
                   | pipeline.Clone => "CloneSourceCodeSucceeded"
                   | pipeline.Build => "BuildImageSucceeded"
                   | pipeline.Push => "PushImageSucceeded"
                   end
     /\ Message c = match s with
                    | pipeline.Clone => "Source code cloning was successful."
                    | pipeline.Build => "Building the source code was successful."
                    | pipeline.Push =>
                        "Pushing the built image to the registry was successful."
                    end
     /\ ObservedGeneration c = choreov1.Generation b)
  /\ (forall t, t <> pipeline.conditionOf s ->
      pipeline.condition b' t = pipeline.condition b t)
  /\ choreov1.Generation b' = choreov1.Generation b
  /\ pipeline.image b' = pipeline.image b.
Proof.
  intros b'. unfold b', build.markStepAsSucceeded.
  match goal with
  | |- context [build.setCondition now b ?c] =>
      destruct (condition_setCondition now b c)
        as (c' & Hfind & _ & Hstatus & Hreason & Hmessage & Hgeneration)
  end.
  split; [|split; [|split; reflexivity]].
  - exists c'. repeat split; try assumption.
    + rewrite Hreason. by destruct s.
    + rewrite Hmessage. by destruct s.
  - intros t Ht. by apply condition_setCondition_other.
Qed.

(** X7.  The descriptor maps have three keys.  For any other condition
    type the map index yields the zero descriptor, so [markStepAsSucceeded]
    stores a True condition, and [markStepAsFailed] a False one, whose
    reason and message are empty. *)
Theorem X7_unknown_condition_type now b (t : string) :
  t <> "CloneSucceeded" -> t <> "BuildSucceeded" -> t <> "PushSucceeded" ->
  t <> "Completed" ->
  (exists c,
     pipeline.condition (build.markStepAsSucceeded now b t) t = Some c
     /\ Status c = "True" /\ Reason c = "" /\ Message c = "")
  /\ (exists c,
        pipeline.condition (build.markStepAsFailed now b t) t = Some c
        /\ Status c = "False" /\ Reason c = "" /\ Message c = "").
Proof.
  intros H1 H2 H3 H4. split.
  - unfold build.markStepAsSucceeded.
    rewrite index_successDescriptors_other by assumption.
    match goal with
    | |- context [build.setCondition now b ?c] =>
        destruct (condition_setCondition now b c)
          as (c' & Hfind & _ & Hstatus & Hreason & Hmessage & _)
    end.
    by exists c'.
  - unfold build.markStepAsFailed.
    rewrite index_failureDescriptors_other by assumption.
    rewrite condition_setCondition_other by exact H4.
    match goal with
    | |- context [build.setCondition now b ?c] =>
        destruct (condition_setCondition now b c)
          as (c' & Hfind & _ & Hstatus & Hreason & Hmessage & _)
    end.
    by exists c'.
Qed.

Lemma X7_unknown_condition_type_witness :
  (exists c,
     pipeline.condition
       (build.markStepAsSucceeded 100 (choreov1.newBuild 3) "TestSucceeded")
       "TestSucceeded" = Some c
     /\ Status c = "True" /\ Reason c = "" /\ Message c = "")
  /\ (exists c,
        pipeline.condition
          (build.markStepAsFailed 100 (choreov1.newBuild 3) "TestSucceeded")
          "TestSucceeded" = Some c
        /\ Status c = "False" /\ Reason c = "" /\ Message c = "").
Proof.
  apply X7_unknown_condition_type; discriminate.
Defined.

(** X8.  Marking a step as succeeded again, at any later time, changes
    nothing: the build after the second call is the build after the
    first, timestamps included.  This holds for every condition type. *)
Theorem X8_markStepAsSucceeded_idempotent now1 now2 b (t : string) :
  build.markStepAsSucceeded now2 (build.markStepAsSucceeded now1 b t) t
  = build.markStepAsSucceeded now1 b t.
Proof.
  unfold build.markStepAsSucceeded at 1.
  set (b1 := build.markStepAsSucceeded now1 b t).
  assert (choreov1.Generation b1 = choreov1.Generation b) as -> by reflexivity.
  unfold b1, build.markStepAsSucceeded.
  match goal with
  | |- build.setCondition now2 (build.setCondition now1 b ?c1) ?c2 = _ =>
      destruct (condition_setCondition now1 b c1)
        as (stored & Hfind & _ & Hstatus & Hreason & Hmessage & Hgeneration);
      apply (setCondition_stored_again now2 _ c2 stored)
  end; assumption.
Qed.

(** X9.  Marking a step as failed again, at any later time, changes
    nothing either, for every condition type but Completed itself. *)
Theorem X9_markStepAsFailed_idempotent now1 now2 b (t : string) :
  t <> "Completed" ->
  build.markStepAsFailed now2 (build.markStepAsFailed now1 b t) t
  = build.markStepAsFailed now1 b t.
Proof.
  intros Ht.
  unfold build.markStepAsFailed at 1.
  set (b1 := build.markStepAsFailed now1 b t).
  cbv zeta.
  assert (forall now c, choreov1.Generation (build.setCondition now b1 c)
                        = choreov1.Generation b) as Hgen by reflexivity.
  assert (choreov1.Generation b1 = choreov1.Generation b) as Hgen1 by reflexivity.
  rewrite Hgen, Hgen1.
  assert (build.setCondition now2 b1
            (controller.NewCondition now2 t ConditionFalse
               (build.Reason (build.index build.failureDescriptors t))
               (build.Message (build.index build.failureDescriptors t))
               (choreov1.Generation b)) = b1) as ->.
  { unfold b1, build.markStepAsFailed.
    match goal with
    | |- build.setCondition now2 (build.setCondition now1 (build.setCondition now1 b ?c1) ?cc) ?c2 = _ =>
        destruct (condition_setCondition now1 b c1)
          as (stored & Hfind & _ & Hstatus & Hreason & Hmessage & Hgeneration);
        apply (setCondition_stored_again now2 _ c2 stored)
    end; try assumption.
    rewrite condition_setCondition_other by exact Ht. exact Hfind. }
  unfold b1, build.markStepAsFailed.
  match goal with
  | |- build.setCondition now2 (build.setCondition now1 ?b0 ?cc) ?c2 = _ =>
      destruct (condition_setCondition now1 b0 cc)
        as (stored & Hfind & _ & Hstatus & Hreason & Hmessage & Hgeneration);
      apply (setCondition_stored_again now2 _ c2 stored)
  end; assumption.
Qed.

Lemma X9_markStepAsFailed_idempotent_witness :
  build.markStepAsFailed 200
    (build.markStepAsFailed 100 (choreov1.newBuild 3) "BuildSucceeded") "BuildSucceeded"
  = build.markStepAsFailed 100 (choreov1.newBuild 3) "BuildSucceeded".
Proof.
  apply X9_markStepAsFailed_idempotent. discriminate.
Defined.

(** X10.  A step that was marked as succeeded and is then marked as
    failed has its condition flipped to False, and the condition's
    [LastTransitionTime] is the time of the failing call. *)
Theorem X10_failure_after_success_is_a_transition now1 now2 b (s : pipeline.step) :
  exists c,
    pipeline.condition
      (build.markStepAsFailed now2
         (build.markStepAsSucceeded now1 b (pipeline.conditionOf s))
         (pipeline.conditionOf s))
      (pipeline.conditionOf s) = Some c
    /\ Status c = "False"
    /\ LastTransitionTime c = now2.
Proof.
  unfold build.markStepAsFailed. cbv zeta.
  rewrite condition_setCondition_other by (destruct s; discriminate).
  unfold build.markStepAsSucceeded.
  match goal with
  | |- context [build.setCondition now2 (build.setCondition now1 b ?c1) ?c2] =>
      destruct (condition_setCondition now1 b c1) as (stored & Hfind & _ & Hstatus & _);
      pose proof (FindStatusCondition_Set_stored now2 _ c2 stored Hfind) as Hflip
  end.
  eexists. split; [exact Hflip|]. simpl. split; [reflexivity|].
  rewrite Hstatus. simpl. rewrite ?decide_False by discriminate.
  by destruct (IsZero now2).
Qed.

(** X11.  Nothing guards Completed against being set again: after a failed
    step, [markWorkflowCompleted] with an image still turns Completed to
    True, with the time of that call as transition time, and records the
    image, while the failed step's condition stays False. *)
Theorem X11_completed_after_failure now1 now2 b (s : pipeline.step) output v :
  pipeline.firstImage output {| argoproj.Name := "image"; argoproj.Value := Some v |} ->
  v <> "" ->
  exists b' completed failed,
    build.markWorkflowCompleted now2
      (build.markStepAsFailed now1 b (pipeline.conditionOf s)) (Some output)
    = Go.Returned b'
    /\ pipeline.image b' = v
    /\ pipeline.condition b' "Completed" = Some completed
    /\ Status completed = "True"
    /\ Reason completed = "BuildCompleted"
    /\ LastTransitionTime completed = now2
    /\ pipeline.condition b' (pipeline.conditionOf s) = Some failed
    /\ Status failed = "False".
Proof.
  intros Hfirst Hv.
  apply getImageNameFromWorkflow_first in Hfirst. simpl in Hfirst.
  rewrite (markWorkflowCompleted_image now2 _ output v Hfirst Hv).
  unfold build.markStepAsFailed. cbv zeta.
  match goal with
  | |- context [build.setCondition now1 (build.setCondition now1 b ?c1) ?cc] =>
      destruct (condition_setCondition now1 b c1) as (failed & Hfailed & _ & Hfalse & _);
      destruct (condition_setCondition now1 (build.setCondition now1 b c1) cc)
        as (stored & Hstored & _ & Hstatus & _)
  end.
  match goal with
  | |- context [build.setCondition now2 ?b0 ?c] =>
      pose proof (FindStatusCondition_Set_stored now2
                    (choreov1.Conditions (choreov1.Status b0)) c stored Hstored) as Hflip
  end.
  eexists _, _, failed. repeat split.
  - exact Hflip.
  - reflexivity.
  - reflexivity.
  - simpl. rewrite Hstatus. simpl. rewrite ?decide_False by discriminate.
    by destruct (IsZero now2).
  - rewrite condition_setCondition_other by (destruct s; discriminate).
    rewrite condition_withImage.
    rewrite condition_setCondition_other by (destruct s; discriminate).
    exact Hfailed.
  - exact Hfalse.
Qed.

Lemma X11_completed_after_failure_witness :
  exists b' completed failed,
    build.markWorkflowCompleted 200
      (build.markStepAsFailed 100 (choreov1.newBuild 3) "PushSucceeded")
      (Some {| argoproj.Parameters :=
                 [ {| argoproj.Name := "image"; argoproj.Value := Some "foo:1" |} ] |})
    = Go.Returned b'
    /\ pipeline.image b' = "foo:1"
    /\ pipeline.condition b' "Completed" = Some completed
    /\ Status completed = "True"
    /\ Reason completed = "BuildCompleted"
    /\ LastTransitionTime completed = 200
    /\ pipeline.condition b' "PushSucceeded" = Some failed
    /\ Status failed = "False".
Proof.
  apply (X11_completed_after_failure 100 200 (choreov1.newBuild 3) pipeline.Push).
  - exists [], []. repeat split. constructor.
  - discriminate.
Defined.

(** X12.  Marks of two different condition types commute as far as any
    reader of the conditions by type can tell: whichever of the two
    [markStepAsSucceeded] calls runs first, each condition type is found
    with the same condition afterwards. *)
Theorem X12_marks_of_different_steps_commute now1 now2 b (t1 t2 : string) :
  t1 <> t2 ->
  forall t,
    pipeline.condition
      (build.markStepAsSucceeded now2 (build.markStepAsSucceeded now1 b t1) t2) t
    = pipeline.condition
        (build.markStepAsSucceeded now1 (build.markStepAsSucceeded now2 b t2) t1) t.
Proof.
  intros Hne t. unfold build.markStepAsSucceeded.
  assert (forall now c, choreov1.Generation (build.setCondition now b c)
                        = choreov1.Generation b) as Hgen by reflexivity.
  rewrite !Hgen.
  set (c1 := controller.NewCondition now1 t1 _ _ _ _).
  set (c2 := controller.NewCondition now2 t2 _ _ _ _).
  assert (Type_ c1 = t1) as Ht1 by reflexivity.
  assert (Type_ c2 = t2) as Ht2 by reflexivity.
  clearbody c1 c2.
  unfold pipeline.condition, build.setCondition. simpl.
  set (conditions := choreov1.Conditions (choreov1.Status b)). clearbody conditions.
  destruct (decide (t = t1)) as [->|Hn1]; [|destruct (decide (t = t2)) as [->|Hn2]].
  - rewrite FindStatusCondition_Set_other by congruence.
    rewrite <- Ht1. rewrite !FindStatusCondition_Set_eq.
    rewrite FindStatusCondition_Set_other by congruence. reflexivity.
  - rewrite (FindStatusCondition_Set_other now1) by congruence.
    rewrite <- Ht2. rewrite !FindStatusCondition_Set_eq.
    rewrite FindStatusCondition_Set_other by congruence. reflexivity.
  - rewrite !FindStatusCondition_Set_other by congruence. reflexivity.
Qed.

Lemma X12_marks_of_different_steps_commute_witness :
  let b12 :=
    build.markStepAsSucceeded 200
      (build.markStepAsSucceeded 100 (choreov1.newBuild 3) "CloneSucceeded")
      "BuildSucceeded" in
  let b21 :=
    build.markStepAsSucceeded 100
      (build.markStepAsSucceeded 200 (choreov1.newBuild 3) "BuildSucceeded")
      "CloneSucceeded" in
  pipeline.condition b12 "CloneSucceeded" = pipeline.condition b21 "CloneSucceeded"
  /\ pipeline.condition b12 "BuildSucceeded" = pipeline.condition b21 "BuildSucceeded"
  /\ pipeline.conditionTypes b12 <> pipeline.conditionTypes b21.
Proof.
  intros b12 b21.
  pose proof (X12_marks_of_different_steps_commute 100 200 (choreov1.newBuild 3)
                "CloneSucceeded" "BuildSucceeded") as Hcommute.
  split; [|split].
  - apply Hcommute. discriminate.
  - apply Hcommute. discriminate.
  - discriminate.
Defined.

(** X13.  [markStepAsFailed] pins both conditions it writes to the build's
    generation: the step's condition carries the step's failure message and
    the Completed condition the message "Build completed with a failure
    status", each with the build's generation as observed generation. *)
Theorem X13_markStepAsFailed_observes_generation now b (s : pipeline.step) :
  let b' := build.markStepAsFailed now b (pipeline.conditionOf s) in
  exists failed completed,
    pipeline.condition b' (pipeline.conditionOf s) = Some failed
    /\ Message failed = match s with
                        | pipeline.Clone => "Source code cloning failed."
                        | pipeline.Build => "Building the source code failed."
                        | pipeline.Push =>
                            "Pushing the built image to the registry failed."
                        end
    /\ ObservedGeneration failed = choreov1.Generation b
    /\ pipeline.condition b' "Completed" = Some completed
    /\ Message completed = "Build completed with a failure status"
    /\ ObservedGeneration completed = choreov1.Generation b
    /\ choreov1.Generation b' = choreov1.Generation b
    /\ pipeline.image b' = pipeline.image b.
Proof.
  intros b'. unfold b', build.markStepAsFailed. cbv zeta.
  match goal with
  | |- context [build.setCondition now (build.setCondition now b ?c1) ?cc] =>
      destruct (condition_setCondition now b c1)
        as (failed & Hfailed & _ & _ & _ & Hm1 & Hg1);
      destruct (condition_setCondition now (build.setCondition now b c1) cc)
        as (completed & Hcompleted & _ & _ & _ & Hm2 & Hg2)
  end.
  exists failed, completed. repeat split; try assumption.
  - rewrite condition_setCondition_other by (destruct s; discriminate). exact Hfailed.
  - rewrite Hm1. by destruct s.
Qed.

(** X14.  No condition write changes the build's generation, and the
    recorded image changes only through a [markWorkflowCompleted] that
    found a non-empty image, which it then is. *)
Theorem X14_writes_keep_generation_and_image now (w : pipeline.write) b :
  choreov1.Generation (pipeline.perform now w b) = choreov1.Generation b
  /\ (pipeline.image (pipeline.perform now w b) = pipeline.image b
      \/ exists output image,
           w = pipeline.MarkWorkflowCompleted (Some output)
           /\ build.getImageNameFromWorkflow output = Go.Returned image
           /\ image <> ""
           /\ pipeline.image (pipeline.perform now w b) = image).
Proof.
  destruct w as [g|t|t|out|g|g|g]; simpl; try (split; [reflexivity | by left]).
  unfold build.markWorkflowCompleted.
  destruct out as [output|]; simpl; [|split; [reflexivity | by left]].
  destruct (build.getImageNameFromWorkflow output) as [image|] eqn:Himage; simpl;
    [|split; [reflexivity | by left]].
  case_decide; (split; [reflexivity|]); [by left|].
  right. by exists output, image.
Qed.

(** X15.  A write stores at most one condition more than there were, and
    [markStepAsFailed] at most two; none stores fewer. *)
Theorem X15_writes_grow_conditions_slowly now (w : pipeline.write) b :
  (length (pipeline.conditionTypes b)
   <= length (pipeline.conditionTypes (pipeline.perform now w b)))%nat
  /\ (length (pipeline.conditionTypes (pipeline.perform now w b))
      <= length (pipeline.conditionTypes b)
         + match w with pipeline.MarkStepAsFailed _ => 2 | _ => 1 end)%nat.
Proof.
  assert (forall now b c,
            (length (pipeline.conditionTypes b)
             <= length (pipeline.conditionTypes (build.setCondition now b c))
             <= length (pipeline.conditionTypes b) + 1)%nat) as Hone.
  { intros now' b' c. unfold pipeline.conditionTypes, build.setCondition. simpl.
    rewrite !length_fmap, SetStatusCondition_length. case_decide; lia. }
  destruct w as [g|t|t|out|g|g|g]; simpl; try apply Hone.
  - unfold build.markStepAsFailed. cbv zeta.
    match goal with
    | |- context [build.setCondition now (build.setCondition now b ?c1) ?cc] =>
        pose proof (Hone now b c1);
        pose proof (Hone now (build.setCondition now b c1) cc)
    end. lia.
  - unfold build.markWorkflowCompleted.
    destruct out as [output|]; simpl; [|lia].
    destruct (build.getImageNameFromWorkflow output) as [image|]; simpl; [|lia].
    case_decide; [apply Hone|].
    match goal with
    | |- context [build.setCondition now (choreov1.withImage b image) ?c] =>
        pose proof (Hone now (choreov1.withImage b image) c) as Himage
    end.
    exact Himage.
Qed.

End more_builds.

(** ** The handlers, continued *)

Section more_handlers.

Context {E : Externals} {Store : Type} {kubernetesClient : client.Client Store}.

Import argo.

Lemma serviceAccountHandler_shouldUpdate_false (current new : corev1.ServiceAccount) :
  serviceAccountHandler_shouldUpdate current new = false
  <-> ExtractManagedLabels (metav1.Labels (corev1.ObjectMeta current))
      = ExtractManagedLabels (metav1.Labels (corev1.ObjectMeta new)).
Proof.
  unfold serviceAccountHandler_shouldUpdate, cmp.Equal.
  rewrite negb_false_iff. apply bool_decide_eq_true.
Qed.

Lemma roleBindingHandler_shouldUpdate_false (current new : rbacv1.RoleBinding) :
  roleBindingHandler_shouldUpdate current new = false
  <-> ExtractManagedLabels (metav1.Labels (rbacv1.ObjectMeta current))
      = ExtractManagedLabels (metav1.Labels (rbacv1.ObjectMeta new))
      /\ rbacv1.Subjects current = rbacv1.Subjects new
      /\ rbacv1.RoleRef_ current = rbacv1.RoleRef_ new.
Proof.
  unfold roleBindingHandler_shouldUpdate, cmp.Equal.
  repeat (case_bool_decide; simpl); split; try discriminate; try tauto; done.
Qed.

(** X16.  What the two diff policies compare.  The service-account policy
    flags nothing exactly when the managed labels of the two objects are
    equal; the role-binding policy exactly when the managed labels, the
    subjects and the role reference are. *)
Theorem X16_shouldUpdate_compares_managed_fields :
  (forall current new : corev1.ServiceAccount,
     serviceAccountHandler_shouldUpdate current new = false
     <-> ExtractManagedLabels (metav1.Labels (corev1.ObjectMeta current))
         = ExtractManagedLabels (metav1.Labels (corev1.ObjectMeta new)))
  /\ (forall current new : rbacv1.RoleBinding,
        roleBindingHandler_shouldUpdate current new = false
        <-> ExtractManagedLabels (metav1.Labels (rbacv1.ObjectMeta current))
            = ExtractManagedLabels (metav1.Labels (rbacv1.ObjectMeta new))
            /\ rbacv1.Subjects current = rbacv1.Subjects new
            /\ rbacv1.RoleRef_ current = rbacv1.RoleRef_ new).
Proof.
  split; intros current new.
  - apply serviceAccountHandler_shouldUpdate_false.
  - apply roleBindingHandler_shouldUpdate_false.
Qed.

(** X17.  "Needs no update" is symmetric and transitive for both policies:
    with reflexivity, an equivalence on objects. *)
Theorem X17_no_update_is_an_equivalence :
  (forall a b : corev1.ServiceAccount,
     serviceAccountHandler_shouldUpdate a b = serviceAccountHandler_shouldUpdate b a)
  /\ (forall a b c : corev1.ServiceAccount,
        serviceAccountHandler_shouldUpdate a b = false ->
        serviceAccountHandler_shouldUpdate b c = false ->
        serviceAccountHandler_shouldUpdate a c = false)
  /\ (forall a b : rbacv1.RoleBinding,
        roleBindingHandler_shouldUpdate a b = roleBindingHandler_shouldUpdate b a)
  /\ (forall a b c : rbacv1.RoleBinding,
        roleBindingHandler_shouldUpdate a b = false ->
        roleBindingHandler_shouldUpdate b c = false ->
        roleBindingHandler_shouldUpdate a c = false).
Proof.
  repeat split.
  - intros a b.
    unfold serviceAccountHandler_shouldUpdate, cmp.Equal.
    f_equal. apply bool_decide_ext. split; congruence.
  - intros a b c Hab Hbc.
    apply serviceAccountHandler_shouldUpdate_false in Hab, Hbc.
    apply serviceAccountHandler_shouldUpdate_false. congruence.
  - intros a b.
    unfold roleBindingHandler_shouldUpdate, cmp.Equal.
    repeat (case_bool_decide; simpl); congruence.
  - intros a b c Hab Hbc.
    apply roleBindingHandler_shouldUpdate_false in Hab, Hbc.
    apply roleBindingHandler_shouldUpdate_false.
    destruct Hab as (? & ? & ?), Hbc as (? & ? & ?). repeat split; congruence.
Qed.

(** X18.  Name, namespace and resource version are not compared: an object
    with the desired labels (and, for a role binding, the desired subjects
    and role reference) is never flagged against the desired object,
    whatever its name, namespace and resource version.  In particular the
    object [Update] sends, the desired one under the current resource
    version, needs no further update. *)
Theorem X18_identity_and_version_are_not_compared
    (builtCtx : BuildContext) (name namespace resourceVersion : string) :
  serviceAccountHandler_shouldUpdate
    {| corev1.ObjectMeta :=
         {| metav1.Name := name; metav1.Namespace := namespace;
            metav1.Labels := metav1.Labels (corev1.ObjectMeta (makeServiceAccount builtCtx));
            metav1.ResourceVersion := resourceVersion |} |}
    (makeServiceAccount builtCtx) = false
  /\ roleBindingHandler_shouldUpdate
       {| rbacv1.ObjectMeta :=
            {| metav1.Name := name; metav1.Namespace := namespace;
               metav1.Labels := metav1.Labels (rbacv1.ObjectMeta (makeRoleBinding builtCtx));
               metav1.ResourceVersion := resourceVersion |};
          rbacv1.Subjects := rbacv1.Subjects (makeRoleBinding builtCtx);
          rbacv1.RoleRef_ := rbacv1.RoleRef_ (makeRoleBinding builtCtx) |}
       (makeRoleBinding builtCtx) = false
  /\ serviceAccountHandler_shouldUpdate
       {| corev1.ObjectMeta :=
            withResourceVersion (corev1.ObjectMeta (makeServiceAccount builtCtx))
              resourceVersion |}
       (makeServiceAccount builtCtx) = false
  /\ roleBindingHandler_shouldUpdate
       {| rbacv1.ObjectMeta :=
            withResourceVersion (rbacv1.ObjectMeta (makeRoleBinding builtCtx))
              resourceVersion;
          rbacv1.Subjects := rbacv1.Subjects (makeRoleBinding builtCtx);
          rbacv1.RoleRef_ := rbacv1.RoleRef_ (makeRoleBinding builtCtx) |}
       (makeRoleBinding builtCtx) = false.
Proof.
  repeat split;
    first [ by apply serviceAccountHandler_shouldUpdate_false
          | by apply roleBindingHandler_shouldUpdate_false ].
Qed.

(** X19.  Given a pointer to a current object that carries the managed
    labels of the desired one (and, for a role binding, its subjects and
    role reference), [Update] returns nil and makes no call on the client:
    the store is the one it was given, for every client. *)
Theorem X19_update_of_converged_state_is_a_no_op
    (builtCtx : BuildContext) (s : Store)
    (currentSA : corev1.ServiceAccount) (currentRoleBinding : rbacv1.RoleBinding) :
  ExtractManagedLabels (metav1.Labels (corev1.ObjectMeta currentSA))
  = ExtractManagedLabels (MakeLabels builtCtx) ->
  ExtractManagedLabels (metav1.Labels (rbacv1.ObjectMeta currentRoleBinding))
  = ExtractManagedLabels None ->
  rbacv1.Subjects currentRoleBinding = rbacv1.Subjects (makeRoleBinding builtCtx) ->
  rbacv1.RoleRef_ currentRoleBinding = rbacv1.RoleRef_ (makeRoleBinding builtCtx) ->
  serviceAccountHandler_Update builtCtx (ServiceAccountPointer (Some currentSA)) s
  = (Go.Returned None, s)
  /\ roleBindingHandler_Update builtCtx (RoleBindingPointer (Some currentRoleBinding)) s
     = (Go.Returned None, s).
Proof.
  intros Hlabels Hlabels' Hsubjects Hrole. split.
  - unfold serviceAccountHandler_Update.
    assert (serviceAccountHandler_shouldUpdate currentSA (makeServiceAccount builtCtx)
            = false) as ->; [|reflexivity].
    by apply serviceAccountHandler_shouldUpdate_false.
  - unfold roleBindingHandler_Update.
    assert (roleBindingHandler_shouldUpdate currentRoleBinding (makeRoleBinding builtCtx)
            = false) as ->; [|reflexivity].
    by apply roleBindingHandler_shouldUpdate_false.
Qed.

(** X20.  Given a pointer to a current object, [Update] makes at most one
    call on the client.  When it makes one, it is an update of the desired
    object (the handler's name, the context's namespace, the desired
    labels) under the resource version of the current object, and the
    client's error and store are passed on as they are. *)
Theorem X20_update_sends_desired_under_current_version
    (builtCtx : BuildContext) (s : Store) (currentSA : corev1.ServiceAccount) :
  serviceAccountHandler_Update builtCtx (ServiceAccountPointer (Some currentSA)) s
  = (Go.Returned None, s)
  \/ exists sent,
       metav1.Name (corev1.ObjectMeta sent) = "workflow-sa"
       /\ metav1.Namespace (corev1.ObjectMeta sent) = MakeNamespaceName builtCtx
       /\ metav1.Labels (corev1.ObjectMeta sent) = MakeLabels builtCtx
       /\ metav1.ResourceVersion (corev1.ObjectMeta sent)
          = metav1.ResourceVersion (corev1.ObjectMeta currentSA)
       /\ serviceAccountHandler_shouldUpdate currentSA (makeServiceAccount builtCtx) = true
       /\ serviceAccountHandler_Update builtCtx (ServiceAccountPointer (Some currentSA)) s
          = (Go.Returned (client.Update_ServiceAccount sent s).1,
             (client.Update_ServiceAccount sent s).2).
Proof.
  rewrite serviceAccountHandler_Update_pointer.
  destruct (serviceAccountHandler_shouldUpdate _ _); [right | by left].
  exists {| corev1.ObjectMeta :=
              withResourceVersion (corev1.ObjectMeta (makeServiceAccount builtCtx))
                (metav1.ResourceVersion (corev1.ObjectMeta currentSA)) |}.
  by repeat split.
Qed.

(** X21.  The same for the role binding: at most one call, an update of
    the desired binding (the handler's name, the context's namespace, the
    service account as only subject, the role as role reference) under the
    resource version of the current binding. *)
Theorem X21_role_binding_update_sends_desired_under_current_version
    (builtCtx : BuildContext) (s : Store) (currentRoleBinding : rbacv1.RoleBinding) :
  roleBindingHandler_Update builtCtx (RoleBindingPointer (Some currentRoleBinding)) s
  = (Go.Returned None, s)
  \/ exists sent,
       metav1.Name (rbacv1.ObjectMeta sent) = "workflow-role-binding"
       /\ metav1.Namespace (rbacv1.ObjectMeta sent) = MakeNamespaceName builtCtx
       /\ metav1.ResourceVersion (rbacv1.ObjectMeta sent)
          = metav1.ResourceVersion (rbacv1.ObjectMeta currentRoleBinding)
       /\ rbacv1.Subjects sent
          = [ {| rbacv1.Subject_Kind := "ServiceAccount";
                 rbacv1.Subject_APIGroup := "";
                 rbacv1.Subject_Name := "workflow-sa";
                 rbacv1.Subject_Namespace := MakeNamespaceName builtCtx |} ]
       /\ rbacv1.RoleRef_ sent
          = {| rbacv1.RoleRef_APIGroup := "rbac.authorization.k8s.io";
               rbacv1.RoleRef_Kind := "Role";
               rbacv1.RoleRef_Name := makeRoleName |}
       /\ roleBindingHandler_shouldUpdate currentRoleBinding (makeRoleBinding builtCtx)
          = true
       /\ roleBindingHandler_Update builtCtx
            (RoleBindingPointer (Some currentRoleBinding)) s
          = (Go.Returned (client.Update_RoleBinding sent s).1,
             (client.Update_RoleBinding sent s).2).
Proof.
  rewrite roleBindingHandler_Update_pointer.
  destruct (roleBindingHandler_shouldUpdate _ _); [right | by left].
  exists {| rbacv1.ObjectMeta :=
              withResourceVersion (rbacv1.ObjectMeta (makeRoleBinding builtCtx))
                (metav1.ResourceVersion (rbacv1.ObjectMeta currentRoleBinding));
            rbacv1.Subjects := rbacv1.Subjects (makeRoleBinding builtCtx);
            rbacv1.RoleRef_ := rbacv1.RoleRef_ (makeRoleBinding builtCtx) |}.
  by repeat split.
Qed.

(** X22.  The role binding the handler makes binds the service account the
    service-account handler makes: its only subject is of kind
    ServiceAccount and has that account's name and namespace, which is also
    the binding's own namespace; and [Create] hands exactly these two
    objects to the client. *)
Theorem X22_role_binding_binds_the_service_account (builtCtx : BuildContext) (s : Store) :
  (exists subject,
     rbacv1.Subjects (makeRoleBinding builtCtx) = [subject]
     /\ rbacv1.Subject_Kind subject = "ServiceAccount"
     /\ rbacv1.Subject_Name subject
        = metav1.Name (corev1.ObjectMeta (makeServiceAccount builtCtx))
     /\ rbacv1.Subject_Namespace subject
        = metav1.Namespace (corev1.ObjectMeta (makeServiceAccount builtCtx))
     /\ rbacv1.Subject_Namespace subject
        = metav1.Namespace (rbacv1.ObjectMeta (makeRoleBinding builtCtx)))
  /\ serviceAccountHandler_Create builtCtx s
     = client.Create_ServiceAccount (makeServiceAccount builtCtx) s
  /\ roleBindingHandler_Create builtCtx s
     = client.Create_RoleBinding (makeRoleBinding builtCtx) s.
Proof.
  split; [|split; reflexivity]. eexists. by repeat split.
Qed.

(** X23.  On a client that finds what it created (under the object's
    namespace and name, with the labels it was given), and with an
    [IsNotFound] that does not take nil for not-found: after a successful
    [Create], [GetCurrentState] returns the service account as present,
    [shouldUpdate] does not flag it, and [Update] on a pointer to it is a
    no-op. *)
Theorem X23_created_service_account_is_found_converged
    (builtCtx : BuildContext) (s s' : Store) :
  IsNotFound None = false ->
  (forall object s0 s1 into,
     client.Create_ServiceAccount object s0 = (None, s1) ->
     exists found,
       client.Get_ServiceAccount
         {| client.Namespace := metav1.Namespace (corev1.ObjectMeta object);
            client.Name := metav1.Name (corev1.ObjectMeta object) |} into s1
       = (found, None, s1)
       /\ metav1.Labels (corev1.ObjectMeta found)
          = metav1.Labels (corev1.ObjectMeta object)) ->
  serviceAccountHandler_Create builtCtx s = (None, s') ->
  exists found,
    serviceAccountHandler_GetCurrentState builtCtx s' = (ServiceAccountValue found, None, s')
    /\ serviceAccountHandler_shouldUpdate found (makeServiceAccount builtCtx) = false
    /\ serviceAccountHandler_Update builtCtx (ServiceAccountPointer (Some found)) s'
       = (Go.Returned None, s').
Proof.
  intros Hnil Hfinds Hcreate.
  unfold serviceAccountHandler_Create in Hcreate.
  destruct (Hfinds _ _ _ {| corev1.ObjectMeta := zeroObjectMeta |} Hcreate)
    as (found & Hget & Hlabels).
  simpl in Hget, Hlabels.
  assert (serviceAccountHandler_shouldUpdate found (makeServiceAccount builtCtx) = false)
    as Hsame.
  { apply serviceAccountHandler_shouldUpdate_false. simpl. by rewrite Hlabels. }
  exists found. split; [|split].
  - unfold serviceAccountHandler_GetCurrentState. cbv zeta.
    unfold makeServiceAccountName in *. rewrite Hget. by rewrite Hnil.
  - exact Hsame.
  - unfold serviceAccountHandler_Update. by rewrite Hsame.
Qed.

(** X24.  The type assertions of [Update].  A state that is not a pointer
    of the handler's own kind (the nil interface, a struct value, the other
    handler's pointer) gets the cast error back; a nil pointer of the
    handler's own kind makes [Update] panic in [shouldUpdate].  In both
    cases no call is made on the client. *)
Theorem X24_update_type_assertion
    (builtCtx : BuildContext) (s : Store) (currentState : any) :
  ((forall p, currentState <> ServiceAccountPointer p) ->
   serviceAccountHandler_Update builtCtx currentState s
   = (Go.Returned (Some (errors_New "failed to cast current state to ServiceAccount")), s))
  /\ ((forall p, currentState <> RoleBindingPointer p) ->
      roleBindingHandler_Update builtCtx currentState s
      = (Go.Returned (Some (errors_New "failed to cast current state to Role Binding")), s))
  /\ serviceAccountHandler_Update builtCtx (ServiceAccountPointer None) s
     = (Go.NilPointerDereference, s)
  /\ roleBindingHandler_Update builtCtx (RoleBindingPointer None) s
     = (Go.NilPointerDereference, s).
Proof.
  repeat split; try reflexivity; intros Hkind;
    destruct currentState; try reflexivity; by destruct (Hkind p).
Qed.

End more_handlers.

(** ** The handlers on the two clients, continued *)

Section more_on_the_clients.

Import argo.

Lemma X19_update_of_converged_state_is_a_no_op_witness :
  fake.UpdateServiceAccount "ci"
    (ServiceAccountPointer
       (Some {| corev1.ObjectMeta :=
                  {| metav1.Name := "workflow-sa"; metav1.Namespace := "ci";
                     metav1.Labels :=
                       Some {[ "managed-by" := "choreo-build-controller";
                               "owner" := "someone-else" ]};
                     metav1.ResourceVersion := "41" |} |}))
    fake.provisioned
  = (Go.Returned None, fake.provisioned)
  /\ fake.UpdateRoleBinding "ci"
       (RoleBindingPointer
          (Some {| rbacv1.ObjectMeta :=
                     {| metav1.Name := "workflow-role-binding"; metav1.Namespace := "ci";
                        metav1.Labels := None; metav1.ResourceVersion := "7" |};
                   rbacv1.Subjects :=
                     [ {| rbacv1.Subject_Kind := "ServiceAccount";
                          rbacv1.Subject_APIGroup := "";
                          rbacv1.Subject_Name := "workflow-sa";
                          rbacv1.Subject_Namespace := "ci" |} ];
                   rbacv1.RoleRef_ :=
                     {| rbacv1.RoleRef_APIGroup := "rbac.authorization.k8s.io";
                        rbacv1.RoleRef_Kind := "Role";
                        rbacv1.RoleRef_Name := "workflow-role" |} |}))
       fake.provisioned
     = (Go.Returned None, fake.provisioned).
Proof.
  apply (@X19_update_of_converged_state_is_a_no_op
           fake.externals fake.Store fake.kubernetesClient "ci" fake.provisioned).
  - vm_compute. reflexivity.
  - reflexivity.
  - reflexivity.
  - reflexivity.
Defined.

Lemma memory_finds_what_it_created
    (object : corev1.ServiceAccount) (s0 s1 : memory.Store) (into : corev1.ServiceAccount) :
  memory.createServiceAccount object s0 = (None, s1) ->
  exists found,
    memory.get (memory.serviceAccounts s1)
      {| client.Namespace := metav1.Namespace (corev1.ObjectMeta object);
         client.Name := metav1.Name (corev1.ObjectMeta object) |} into s1
    = (found, None, s1)
    /\ metav1.Labels (corev1.ObjectMeta found) = metav1.Labels (corev1.ObjectMeta object).
Proof.
  unfold memory.createServiceAccount, memory.get.
  destruct (memory.serviceAccounts s0 !! _); [discriminate|].
  intros [= <-]. eexists. simpl.
  unfold fake.path, memory.path. simpl. rewrite lookup_insert_eq. split; reflexivity.
Qed.

Lemma X23_created_service_account_is_found_converged_witness :
  exists found,
    @serviceAccountHandler_GetCurrentState fake.externals memory.Store
      memory.kubernetesClient "ci"
      (@serviceAccountHandler_Create fake.externals memory.Store
         memory.kubernetesClient "ci" memory.empty).2
    = (ServiceAccountValue found, None,
       (@serviceAccountHandler_Create fake.externals memory.Store
          memory.kubernetesClient "ci" memory.empty).2)
    /\ @serviceAccountHandler_shouldUpdate fake.externals found
         (@makeServiceAccount fake.externals "ci") = false
    /\ @serviceAccountHandler_Update fake.externals memory.Store
         memory.kubernetesClient "ci" (ServiceAccountPointer (Some found))
         (@serviceAccountHandler_Create fake.externals memory.Store
            memory.kubernetesClient "ci" memory.empty).2
       = (Go.Returned None,
          (@serviceAccountHandler_Create fake.externals memory.Store
             memory.kubernetesClient "ci" memory.empty).2).
Proof.
  apply (@X23_created_service_account_is_found_converged
           fake.externals memory.Store memory.kubernetesClient "ci" memory.empty).
  - reflexivity.
  - exact memory_finds_what_it_created.
  - reflexivity.
Defined.

End more_on_the_clients.

(** ** The condition constructors *)

Section constructors.

Import metav1.

Local Open Scope Z_scope.

(** X25.  What each of the four condition constructors leaves on a build
    when its condition is set, whatever was stored before: the type, the
    status, the reason and the message of the constructor, and the
    generation the caller passed as observed generation. *)
Theorem X25_constructed_conditions now b (generation : Z) :
  (exists c,
     pipeline.condition (pipeline.perform now (pipeline.SetInitialized generation) b)
       "Initialized" = Some c
     /\ Status c = "True" /\ Reason c = "WorkflowCreated"
     /\ Message c = "Workflow was created in the cluster."
     /\ ObservedGeneration c = generation)
  /\ (exists c,
        pipeline.condition
          (pipeline.perform now (pipeline.SetDeployableArtifactCreated generation) b)
          "DeployableArtifactCreated" = Some c
        /\ Status c = "True" /\ Reason c = "ArtifactCreationSuccessful"
        /\ Message c = "Successfully created a deployable artifact for the build."
        /\ ObservedGeneration c = generation)
  /\ (exists c,
        pipeline.condition
          (pipeline.perform now (pipeline.SetAutoDeploymentFailed generation) b)
          "DeploymentApplied" = Some c
        /\ Status c = "False" /\ Reason c = "DeploymentFailed"
        /\ Message c = "Deployment configuration failed."
        /\ ObservedGeneration c = generation)
  /\ (exists c,
        pipeline.condition
          (pipeline.perform now (pipeline.SetAutoDeploymentSuccessful generation) b)
          "DeploymentApplied" = Some c
        /\ Status c = "True" /\ Reason c = "DeploymentAppliedSuccessfully"
        /\ Message c = "Successfully configured the deployment."
        /\ ObservedGeneration c = generation).
Proof.
  repeat split; simpl;
    match goal with
    | |- context [build.setCondition now b ?c] =>
        destruct (condition_setCondition now b c)
          as (c' & Hfind & _ & Hstatus & Hreason & Hmessage & Hgeneration);
        by exists c'
    end.
Qed.

(** X26.  The failure and the success of the automatic deployment are one
    condition type.  A success set after a failure overwrites the failure in
    place: the stored types are the same list, and the DeploymentApplied
    condition is True with the time of the second call as transition time. *)
Theorem X26_deployment_success_overwrites_failure now1 now2 b (g1 g2 : Z) :
  let failed := pipeline.perform now1 (pipeline.SetAutoDeploymentFailed g1) b in
  let applied := pipeline.perform now2 (pipeline.SetAutoDeploymentSuccessful g2) failed in
  pipeline.conditionTypes applied = pipeline.conditionTypes failed
  /\ exists c,
       pipeline.condition applied "DeploymentApplied" = Some c
       /\ Status c = "True"
       /\ ObservedGeneration c = g2
       /\ LastTransitionTime c = now2.
Proof.
  intros failed applied. unfold applied, failed. simpl.
  match goal with
  | |- context [build.setCondition now2 (build.setCondition now1 b ?c1) ?c2] =>
      destruct (condition_setCondition now1 b c1) as (stored & Hfind & _ & Hstatus & _);
      pose proof (FindStatusCondition_Set_stored now2 _ c2 stored Hfind) as Hflip
  end.
  split.
  - unfold pipeline.conditionTypes, build.setCondition. simpl.
    rewrite (SetStatusCondition_types now2). rewrite decide_True; [reflexivity|].
    apply dec_stable. intros Hnot. apply FindStatusCondition_None in Hnot.
    unfold pipeline.condition, build.setCondition in Hfind. simpl in Hfind, Hnot.
    congruence.
  - eexists. split; [exact Hflip|]. simpl. repeat split.
    rewrite Hstatus. simpl. rewrite ?decide_False by discriminate.
    by destruct (IsZero now2).
Qed.

End constructors.
